(** * Seat allocation of [proj1.py]: a shallow embedding and its properties

    The script reads four sheets, asks for a seat margin and an arrangement
    mode, and then, for every held session of the schedule, ranks the
    session's courses by enrolment and fills the Block 9 rooms followed by
    the LT rooms.  The embedding below follows [compute_max_capacity] and
    the allocation part of [main] (lines 64-153) statement by statement.
    Spreadsheet input and output, and [create_attendance_file], are not
    modelled: the sheets are taken as already loaded lists of rows, and the
    seating plan is the list of rows that [main] accumulates.

    Modelling choices: counts, capacities, margins and room numbers are
    integers ([Z]); roll numbers and course codes are text; a date is a
    number; a session cell is given by the course codes obtained from it;
    [sorted] and [sort_values] are a stable insertion sort, and the
    properties below use of the room sorts only that their result is sorted
    and a permutation of their input. *)

From Stdlib Require Import Ascii.
From stdpp Require Import base numbers list sorting strings pretty gmap.

Local Open Scope Z_scope.

(** ** Python values and outcomes *)

(** A call either returns a value or raises an exception, named by its
    class. *)
Inductive outcome (A : Type) : Type :=
| Returns (a : A)
| Raises (exc : string).
Arguments Returns {A} a.
Arguments Raises {A} exc.

Global Instance outcome_ret : MRet outcome := @Returns.
Global Instance outcome_bind : MBind outcome :=
  λ A B f m, match m with Returns a => f a | Raises exc => Raises exc end.

(** What [compute_max_capacity] can hand back: an integer, or Python's
    [None] when control falls off the end of the function body. *)
Inductive pyval : Type :=
| PyInt (z : Z)
| PyNone.

(** A spreadsheet cell of the [Block] column: a number such as 9 or a text
    such as LT. *)
Inductive cell : Type :=
| CInt (z : Z)
| CStr (s : string).

Global Instance cell_eq_dec : EqDecision cell.
Proof. solve_decision. Defined.

(** ** Rows of the input sheets and of the seating plan *)

(** Sheet ip_3: columns Block, Room No., Exam Capacity.  Room numbers are
    numeric cells. *)
Record Room : Type := mkRoom {
  Block : cell;
  Room_No : Z;
  Exam_Capacity : Z
}.

(** Sheet ip_1: columns course_code, rollno.  Roll numbers are text, as the
    join of line 144 requires. *)
Record Student_row : Type := mkStudent {
  course_code : string;
  rollno : string
}.

Inductive session_label : Type := Morning | Evening.

(** Sheet ip_2: a date and the two session cells.  A blank cell is [None];
    a filled cell is given by the course codes that [split('; ')] yields. *)
Record Schedule_row : Type := mkSchedule {
  Date : Z;
  Morning_cell : option (list string);
  Evening_cell : option (list string)
}.

(** The dictionaries appended to [assigned_rooms] (lines 120 and 130). *)
Record allocation : Type := mkAlloc {
  alloc_course_code : string;
  alloc_room : Z;
  allocated : Z
}.

(** One row of [seating_plan] (lines 146-153).  [Students] is kept as the
    list that line 144 joins with a semicolon. *)
Record Assignment : Type := mkAssignment {
  a_Date : Z;
  a_Session : session_label;
  Course_Code : string;
  Room_ : Z;
  Allocated_Students : Z;
  Students : list string
}.

(** Everything [main] reads: the two answers typed by the user (the mode
    after [strip] and [lower]) and the three sheets the allocation uses. *)
Record Input : Type := mkInput {
  seat_margin : Z;
  arrangement_mode : string;
  student_records : list Student_row;
  schedule_details : list Schedule_row;
  room_details : list Room
}.

(** ** Lines 7-14: [compute_max_capacity] *)

Definition compute_max_capacity (room_size : Z) (arrangement_mode : string)
    (seat_margin : Z) : outcome pyval :=
  if decide (arrangement_mode = "dense") then
    Returns (PyInt (Z.max 0 (room_size - seat_margin)))
  else if decide (arrangement_mode = "sparse") then
    Returns (PyInt (Z.max 1 (room_size / 2 - seat_margin)))
  else Returns PyNone.

(** Python's [min(max_capacity, remaining_students)]: comparing [None] with
    an integer raises [TypeError]. *)
Definition py_min (a : pyval) (b : Z) : outcome Z :=
  match a with
  | PyInt x => Returns (Z.min x b)
  | PyNone => Raises "TypeError"
  end.

(** Python slices [l[:k]] and [l[k:]] for any integer [k]; a negative [k]
    counts from the end. *)
Definition slice_to {A} (k : Z) (l : list A) : list A :=
  if decide (0 <= k) then take (Z.to_nat k) l
  else take (Z.to_nat (Z.of_nat (length l) + k)) l.

Definition slice_from {A} (k : Z) (l : list A) : list A :=
  if decide (0 <= k) then drop (Z.to_nat k) l
  else drop (Z.to_nat (Z.of_nat (length l) + k)) l.

(** ** Sorting *)

(** [sorted] and [sort_values] are modelled by a stable insertion sort:
    an element is placed in front of the first one it may precede. *)
Fixpoint insert_by {A} (before : A → A → bool) (x : A) (l : list A) : list A :=
  match l with
  | [] => [x]
  | y :: l' => if before x y then x :: y :: l' else y :: insert_by before x l'
  end.

Definition sort_by {A} (before : A → A → bool) (l : list A) : list A :=
  foldr (insert_by before) [] l.

(** ** Lines 64-68 and 80-87: preparation *)

(** Lines 66-68. *)
Definition default_mode (arrangement_mode : string) : string :=
  if decide (arrangement_mode ∈ ["dense"; "sparse"]) then arrangement_mode
  else "dense".

(** [groupby('course_code')['rollno']]: the roll numbers of each course, in
    row order. *)
Definition groupby (records : list Student_row) : gmap string (list string) :=
  foldr (λ row m,
           <[course_code row := rollno row :: default [] (m !! course_code row)]> m)
        ∅ records.

(** Lines 80-81. *)
Definition course_enrollment (records : list Student_row) : gmap string Z :=
  (λ rolls : list string, Z.of_nat (length rolls)) <$> groupby records.

(** Line 82. *)
Definition course_to_students (records : list Student_row)
    : gmap string (list string) :=
  groupby records.

(** Line 86. *)
Definition block_9_rooms (room_details : list Room) : list Room :=
  sort_by (λ r1 r2, bool_decide (Room_No r1 <= Room_No r2))
          (filter (λ r, Block r = CInt 9) room_details).

(** Line 87. *)
Definition lt_block_rooms (room_details : list Room) : list Room :=
  sort_by (λ r1 r2, bool_decide (Exam_Capacity r2 <= Exam_Capacity r1))
          (filter (λ r, Block r = CStr "LT") room_details).

(** ** Lines 99-105: ranking the courses of a session *)

(** Lines 101-102: the count looked up in [course_enrollment], or 0. *)
Definition student_count (ce : gmap string Z) (course : string) : Z :=
  default 0 (ce !! course).

(** Storing a key in an insertion-ordered dictionary. *)
Fixpoint dict_set (d : list (string * Z)) (k : string) (v : Z)
    : list (string * Z) :=
  match d with
  | [] => [(k, v)]
  | (k', v') :: rest =>
      if decide (k' = k) then (k, v) :: rest else (k', v') :: dict_set rest k v
  end.

(** Lines 100-104, as the list of the dictionary's items. *)
Definition course_student_counts (ce : gmap string Z)
    (session_courses : list string) : list (string * Z) :=
  foldl (λ d course, dict_set d course (student_count ce course))
        [] session_courses.

(** Line 105: descending by count, ties in dictionary order. *)
Definition sorted_courses (counts : list (string * Z)) : list (string * Z) :=
  sort_by (λ x y : string * Z, bool_decide (y.2 <= x.2)) counts.

(** ** Lines 107-132: the allocation plan of a session *)

Section allocation.
Variable mode : string.
Variable margin : Z.

(** One of the two room loops (lines 113-120 and 123-130), run on the
    pair of [assigned_rooms] and [remaining_students]. *)
Fixpoint assign_block (course : string) (rooms : list Room)
    (st : list allocation * Z) : outcome (list allocation * Z) :=
  match rooms with
  | [] => Returns st
  | room_info :: rest =>
      let '(assigned_rooms, remaining_students) := st in
      if decide (remaining_students <= 0) then Returns st
      else
        max_capacity ← compute_max_capacity (Exam_Capacity room_info) mode margin;
        allocation_count ← py_min max_capacity remaining_students;
        assign_block course rest
          (assigned_rooms ++ [mkAlloc course (Room_No room_info) allocation_count],
           remaining_students - allocation_count)
  end.

(** Lines 109-130 for one item of [sorted_courses]. *)
Definition assigned_rooms (b9 lt : list Room) (item : string * Z)
    : outcome (list allocation) :=
  st ← assign_block item.1 b9 ([], item.2);
  st ← assign_block item.1 lt st;
  Returns st.1.

(** Lines 107-132. *)
Fixpoint allocation_plan (b9 lt : list Room) (sorted : list (string * Z))
    (plan : list allocation) : outcome (list allocation) :=
  match sorted with
  | [] => Returns plan
  | item :: rest =>
      assigned ← assigned_rooms b9 lt item;
      allocation_plan b9 lt rest (plan ++ assigned)
  end.
End allocation.

(** ** Lines 135-153: appending to the seating plan *)

(** The state that survives from one session to the next:
    [course_to_students] and [seating_plan]. *)
Definition batch_state : Type := gmap string (list string) * list Assignment.

Fixpoint update_seating_plan (exam_date : Z) (session : session_label)
    (plan : list allocation) (st : batch_state) : batch_state :=
  match plan with
  | [] => st
  | a :: rest =>
      match st.1 !! alloc_course_code a with
      | Some roster =>
          update_seating_plan exam_date session rest
            (<[alloc_course_code a := slice_from (allocated a) roster]> st.1,
             st.2 ++ [mkAssignment exam_date session (alloc_course_code a)
                        (alloc_room a) (allocated a)
                        (slice_to (allocated a) roster)])
      | None => update_seating_plan exam_date session rest st
      end
  end.

(** ** Lines 93-153: the loop over the schedule *)

Section batch.
Variable mode : string.
Variable margin : Z.
Variable ce : gmap string Z.
Variables b9 lt : list Room.

(** Lines 96-153 for one session cell. *)
Definition run_session (exam_date : Z) (session : session_label)
    (session_cell : option (list string)) (st : batch_state)
    : outcome batch_state :=
  match session_cell with
  | None => Returns st
  | Some session_courses =>
      plan ← allocation_plan mode margin b9 lt
               (sorted_courses (course_student_counts ce session_courses)) [];
      Returns (update_seating_plan exam_date session plan st)
  end.

(** Lines 94-95: Morning, then Evening. *)
Definition run_row (session_info : Schedule_row) (st : batch_state)
    : outcome batch_state :=
  st ← run_session (Date session_info) Morning (Morning_cell session_info) st;
  run_session (Date session_info) Evening (Evening_cell session_info) st.

Fixpoint run_schedule (rows : list Schedule_row) (st : batch_state)
    : outcome batch_state :=
  match rows with
  | [] => Returns st
  | session_info :: rest => st ← run_row session_info st; run_schedule rest st
  end.
End batch.

(** [main] up to line 153: the seating plan that is then saved. *)
Definition main (inp : Input) : outcome (list Assignment) :=
  let mode := default_mode (arrangement_mode inp) in
  st ← run_schedule mode (seat_margin inp)
         (course_enrollment (student_records inp))
         (block_9_rooms (room_details inp))
         (lt_block_rooms (room_details inp))
         (schedule_details inp)
         (course_to_students (student_records inp), []);
  Returns st.2.

(** ** Derived notions used in the statements *)

(** The usable capacity of a room under a recognised mode. *)
Definition usable (mode : string) (margin : Z) (room_size : Z) : Z :=
  if decide (mode = "dense") then Z.max 0 (room_size - margin)
  else Z.max 1 (room_size / 2 - margin).

(** The rooms in the order in which the two loops visit them. *)
Definition room_order (room_details : list Room) : list Room :=
  block_9_rooms room_details ++ lt_block_rooms room_details.

(** The held sessions of the schedule, in processing order. *)
Definition held_cells (session_info : Schedule_row)
    : list (Z * session_label * list string) :=
  (match Morning_cell session_info with
   | Some cs => [(Date session_info, Morning, cs)] | None => [] end) ++
  (match Evening_cell session_info with
   | Some cs => [(Date session_info, Evening, cs)] | None => [] end).

Definition held_sessions (rows : list Schedule_row)
    : list (Z * session_label * list string) :=
  rows ≫= held_cells.

(** The allocation recorded by a row of the seating plan. *)
Definition alloc_of (a : Assignment) : allocation :=
  mkAlloc (Course_Code a) (Room_ a) (Allocated_Students a).

Definition sum_Z (l : list Z) : Z := foldr Z.add 0 l.

(** The rows of the seating plan of one course. *)
Definition rows_of (course : string) (plan : list Assignment) : list Assignment :=
  filter (λ a, Course_Code a = course) plan.

(** Sum of the Allocated_Students column over the rows of one course. *)
Definition total_allocated (course : string) (plan : list Assignment) : Z :=
  sum_Z (Allocated_Students <$> rows_of course plan).

(** The Students column of one course, concatenated in row order. *)
Definition seated_students (course : string) (plan : list Assignment)
    : list string :=
  mjoin (Students <$> rows_of course plan).

(** The original roster of a course: its roll numbers in sheet order. *)
Definition roster (records : list Student_row) (course : string) : list string :=
  rollno <$> filter (λ row, course_code row = course) records.

(** The counts of the allocation plan entries of one course. *)
Definition entries_total (course : string) (l : list allocation) : Z :=
  sum_Z (allocated <$> filter (λ a, alloc_course_code a = course) l).

(** The held sessions whose cell lists the course. *)
Definition sessions_listing (course : string) (inp : Input) : nat :=
  length (filter (λ sess : Z * session_label * list string, course ∈ sess.2)
                 (held_sessions (schedule_details inp))).

(** ** The run described without outcomes *)

Section pass.
Variable mode : string.
Variable margin : Z.
Variable ce : gmap string Z.
Variables b9 lt : list Room.

(** What a course with [rem] students still to place receives from
    [rooms]: the visited rooms with their counts. *)
Fixpoint fill (rooms : list Room) (rem : Z) : list (Room * Z) :=
  match rooms with
  | [] => []
  | r :: rest =>
      if decide (rem <= 0) then []
      else
        let k := Z.min (usable mode margin (Exam_Capacity r)) rem in
        (r, k) :: fill rest (rem - k)
  end.

(** The students still to place after the pass. *)
Fixpoint left_after (rooms : list Room) (rem : Z) : Z :=
  match rooms with
  | [] => rem
  | r :: rest =>
      if decide (rem <= 0) then rem
      else left_after rest (rem - Z.min (usable mode margin (Exam_Capacity r)) rem)
  end.

Definition entry (course : string) (p : Room * Z) : allocation :=
  mkAlloc course (Room_No p.1) p.2.

(** The allocation plan of a session, course by course. *)
Definition session_plan (rooms : list Room) (sorted : list (string * Z))
    : list allocation :=
  sorted ≫= (λ item, entry item.1 <$> fill rooms item.2).

(** What is known of a course's roster: the part already written to the
    seating plan followed by the part still in [course_to_students]. *)
Definition accounted (course : string) (st : batch_state) : list string :=
  seated_students course st.2 ++ default [] (st.1 !! course).

(** The passes of a run: one per held session and ranked course, with the
    count that [sorted_courses] carries for it. *)
Definition passes
    (sessions : list (Z * session_label * list string))
    : list (Z * session_label * (string * Z)) :=
  sessions ≫= (λ sess,
    (λ item, (sess.1.1, sess.1.2, item)) <$>
      sorted_courses (course_student_counts ce sess.2)).

(** One held session applied to the state. *)
Definition seat_session (st : batch_state)
    (sess : Z * session_label * list string) : batch_state :=
  update_seating_plan sess.1.1 sess.1.2
    (session_plan (b9 ++ lt)
       (sorted_courses (course_student_counts ce sess.2)))
    st.

(** The rows that one pass writes: the pass's allocations, stamped with
    its date and session. *)
Definition pass_rows (seg : list Assignment)
    (p : Z * session_label * (string * Z)) : Prop :=
  alloc_of <$> seg = entry p.2.1 <$> fill (b9 ++ lt) p.2.2 ∧
  Forall (λ a, a_Date a = p.1.1 ∧ a_Session a = p.1.2) seg.

(** Every course with a positive count has a roster entry. *)
Definition counted_have_roster (st : batch_state) : Prop :=
  ∀ c, 0 < student_count ce c → is_Some (st.1 !! c).

End pass.

(** The seating plan of a run. *)
Definition seating_plan (inp : Input) : list Assignment :=
  (foldl (seat_session (default_mode (arrangement_mode inp)) (seat_margin inp)
            (course_enrollment (student_records inp))
            (block_9_rooms (room_details inp)) (lt_block_rooms (room_details inp)))
         (course_to_students (student_records inp), [])
         (held_sessions (schedule_details inp))).2.

(** The passes of a run, with the course, the count and the session. *)
Definition run_passes (inp : Input) : list (Z * session_label * (string * Z)) :=
  passes (course_enrollment (student_records inp))
         (held_sessions (schedule_details inp)).


(** ** Scenarios *)

Definition rolls (tag : string) (n : nat) : list string :=
  (λ i : nat, tag +:+ pretty i) <$> seq 1 n.

Definition enrol (course : string) (rs : list string) : list Student_row :=
  mkStudent course <$> rs.

(** Two courses of 5 and 50 students in one session, one Block 9 room of
    capacity 40, dense, margin 0. *)
Definition scenario_two_courses : Input :=
  mkInput 0 "dense"
    (enrol "SMALL" (rolls "s" 5) ++ enrol "BIG" (rolls "b" 50))
    [mkSchedule 1 (Some ["SMALL"; "BIG"]) None]
    [mkRoom (CInt 9) 101 40].

(** One course of two students listed on two dates, one Block 9 room of
    capacity 10, dense, margin 0. *)
Definition scenario_listed_twice : Input :=
  mkInput 0 "dense"
    (enrol "X" (rolls "x" 2))
    [mkSchedule 1 (Some ["X"]) None; mkSchedule 2 (Some ["X"]) None]
    [mkRoom (CInt 9) 101 10].

(** One course of three students, two Block 9 rooms of capacities 5 and
    30, dense, margin 5: the first room has no usable seat. *)
Definition scenario_no_usable_seat : Input :=
  mkInput 5 "dense"
    (enrol "X" (rolls "x" 3))
    [mkSchedule 1 (Some ["X"]) None]
    [mkRoom (CInt 9) 101 5; mkRoom (CInt 9) 102 30].

(** The same sheets and answers with a schedule of one session that
    lists one course only. *)
Definition alone (inp : Input) (course : string) : Input :=
  mkInput (seat_margin inp) (arrangement_mode inp) (student_records inp)
    [mkSchedule 0 (Some [course]) None] (room_details inp).

(** The course, room and count columns of what [main] returns. *)
Definition allocations (inp : Input) : list allocation :=
  match main inp with
  | Returns plan => alloc_of <$> plan
  | Raises _ => []
  end.

(** ** Readings of the specification that the code is compared with *)

(** Everything the plan seats in a room. *)
Definition room_load (room : Z) (plan : list Assignment) : Z :=
  sum_Z (Allocated_Students <$> filter (λ a, Room_ a = room) plan).

(** Remaining capacity as the specification describes it: it starts at
    the computed capacity, every allocation to the room is taken off it,
    and it never drops below 0. *)
Definition remaining_capacity_nonneg (inp : Input) : Prop :=
  ∀ plan r u,
    main inp = Returns plan → r ∈ room_details inp →
    compute_max_capacity (Exam_Capacity r) (default_mode (arrangement_mode inp))
      (seat_margin inp) = Returns (PyInt u) →
    0 <= u - room_load (Room_No r) plan.

(** What the plan seats of one course in one room. *)
Definition course_room_share (course : string) (room : Z)
    (plan : list Assignment) : Z :=
  sum_Z (Allocated_Students <$>
         filter (λ a, Course_Code a = course ∧ Room_ a = room) plan).

(** The smaller course of the two-course scenario is served from what the
    larger one left of the 40 seats. *)
Definition small_course_gets_leftover (inp : Input) : Prop :=
  ∀ plan, main inp = Returns plan →
    course_room_share "SMALL" 101 plan <= 40 - course_room_share "BIG" 101 plan.

(** The Allocated_Students column of a course sums to at most its
    enrolment. *)
Definition allocated_within_enrollment (inp : Input) : Prop :=
  ∀ plan course, main inp = Returns plan →
    total_allocated course plan <=
    student_count (course_enrollment (student_records inp)) course.

(** The pending count of a course: the students still in
    [course_to_students]. *)
Definition pending_count (c2s : gmap string (list string)) (course : string) : Z :=
  Z.of_nat (length (default [] (c2s !! course))).

(** The count that ranks a course in a session is its pending count when
    the session starts. *)
Definition counts_are_pending (inp : Input) : Prop :=
  ∀ earlier session_info later st cs course n,
    schedule_details inp = earlier ++ session_info :: later →
    run_schedule (default_mode (arrangement_mode inp)) (seat_margin inp)
      (course_enrollment (student_records inp))
      (block_9_rooms (room_details inp)) (lt_block_rooms (room_details inp))
      earlier (course_to_students (student_records inp), []) = Returns st →
    Morning_cell session_info = Some cs →
    (course, n) ∈ sorted_courses
      (course_student_counts (course_enrollment (student_records inp)) cs) →
    n = pending_count st.1 course.

(** Every row of the plan seats at least one student. *)
Definition all_rows_positive (inp : Input) : Prop :=
  ∀ plan, main inp = Returns plan →
    Forall (λ a, 0 < Allocated_Students a) plan.

(** * The rest of [main] and [create_attendance_file]

    What follows models the code around the allocation: how a session
    cell and the Students cell are split (lines 99 and 165), how the
    Students cell is joined (line 144), the dictionary of names (line 77),
    and the table that [create_attendance_file] writes (lines 20-25 and
    39).  The workbook itself, its file name and its styling are not
    modelled. *)

(** ** Lines 99, 144 and 165: joining and splitting on a semicolon and a
    space *)

(** Line 144: Python's [join] on that separator. *)
Definition join_students (allocated_students : list string) : string :=
  String.concat "; " allocated_students.

(** The character [c] put in front of the first field. *)
Definition push_char (c : Ascii.ascii) (fields : list string) : list string :=
  match fields with
  | [] => [String c ""]
  | f :: rest => String c f :: rest
  end.

(** Lines 99 and 165: Python's [split] on that separator, scanning from
    the left; the empty text gives one empty field. *)
Fixpoint split_cell (s : string) : list string :=
  match s with
  | "" => [""]
  | String c s' =>
      match s' with
      | String d s'' =>
          if decide (String c (String d "") = "; ") then "" :: split_cell s''
          else push_char c (split_cell s')
      | "" => push_char c (split_cell s')
      end
  end.

(** A text holds the separator. *)
Definition has_separator (s : string) : Prop :=
  ∃ a b : string, s = a +:+ "; " +:+ b.

(** ** Line 77: the dictionary of names *)

(** Sheet ip_4: columns Roll (after [astype(str)]) and Name. *)
Record Name_row : Type := mkName {
  Roll : string;
  Name : string
}.

(** [dict(zip(...))]: a later row replaces an earlier one of the same
    roll. *)
Definition roll_name_mapping (rows : list Name_row) : gmap string string :=
  foldl (λ m row, <[Roll row := Name row]> m) ∅ rows.

(** ** Lines 20-25 and 39: the table of [create_attendance_file] *)

(** A line of the attendance table: Roll, Student Name, Signature. *)
Record attendance_line : Type := mkLine {
  line_Roll : string;
  line_Student_Name : string;
  line_Signature : string
}.

(** Lines 20-25: the name of each roll, or Unknown Name, an empty
    signature, and five blank lines at the end. *)
Definition attendance_details (rolls : list string)
    (mapping : gmap string string) : list attendance_line :=
  ((λ roll, mkLine roll (default "Unknown Name" (mapping !! roll)) "") <$> rolls)
  ++ replicate 5 (mkLine "" "" "").

(** Line 39: the width of the name column. *)
Definition name_column_width (details : list attendance_line) : Z :=
  Z.max 15
    (foldr Z.max 0 ((λ l, Z.of_nat (String.length (line_Student_Name l))) <$> details)
     + 2).

(** Lines 160-168: the table made for one row of the seating plan. *)
Definition attendance_of_row (a : Assignment) (mapping : gmap string string)
    : list attendance_line :=
  attendance_details (split_cell (join_students (Students a))) mapping.

(** ** Further notions used in the statements *)

(** The courses of a list in the order of their first occurrence. *)
Fixpoint first_occurrences (l : list string) : list string :=
  match l with
  | [] => []
  | x :: l' => x :: filter (λ y, y ≠ x) (first_occurrences l')
  end.

(** The usable seats of all visited rooms together. *)
Definition total_capacity (inp : Input) : Z :=
  sum_Z ((λ r, usable (default_mode (arrangement_mode inp)) (seat_margin inp)
                 (Exam_Capacity r)) <$> room_order (room_details inp)).

(** The same input with another answer for the mode. *)
Definition with_mode (inp : Input) (mode : string) : Input :=
  mkInput (seat_margin inp) mode (student_records inp) (schedule_details inp)
    (room_details inp).

(** The rows never name more students than they allocate. *)
Definition rows_within_counts (st : batch_state) : Prop :=
  Forall (λ a, Z.of_nat (length (Students a)) <= Allocated_Students a) st.2.

(** Of each course the plan names as many students as it allocates, up
    to the length of the roster. *)
Definition seated_up_to_roster (course : string) (st : batch_state) : Prop :=
  0 <= total_allocated course st.2 ∧
  Z.of_nat (length (seated_students course st.2)) =
  Z.min (total_allocated course st.2) (Z.of_nat (length (accounted course st))).

(** A row of a seating plan with two students. *)
Definition row_two_students : Assignment :=
  mkAssignment 1 Morning "X" 101 2 ["x1"; "x2"].

(** A row of a seating plan that names no student. *)
Definition row_no_students : Assignment :=
  mkAssignment 2 Morning "X" 101 2 [].

(** Rooms of another block only: none is ever visited. *)
Definition scenario_other_block : Input :=
  mkInput 0 "dense"
    (enrol "X" (rolls "x" 3))
    [mkSchedule 1 (Some ["X"]) None]
    [mkRoom (CInt 5) 501 30].

(** * Proofs *)

(** ** Outcomes *)

Lemma bind_Returns {A B} (a : A) (f : A → outcome B) :
  Returns a ≫= f = f a.
Proof. reflexivity. Qed.

(** ** The capacity function *)

Lemma default_mode_recognised m :
  default_mode m = "dense" ∨ default_mode m = "sparse".
Proof.
  unfold default_mode. case_decide as H; [|by left].
  rewrite !elem_of_cons in H.
  destruct H as [H | [H | H]]; [by left | by right | by apply elem_of_nil in H].
Qed.

Lemma compute_max_capacity_usable mode margin size :
  mode = "dense" ∨ mode = "sparse" →
  compute_max_capacity size mode margin = Returns (PyInt (usable mode margin size)).
Proof.
  intros [-> | ->]; reflexivity.
Qed.

Lemma usable_nonneg mode margin size : 0 <= usable mode margin size.
Proof. unfold usable. case_decide; lia. Qed.

Lemma usable_sparse_pos margin size : 1 <= usable "sparse" margin size.
Proof. unfold usable. simpl. lia. Qed.

(** ** The room loops as one pure pass *)

Section pass_lemmas.
Variable mode : string.
Variable margin : Z.
Hypothesis Hmode : mode = "dense" ∨ mode = "sparse".

Lemma assign_block_fill course rooms acc rem :
  assign_block mode margin course rooms (acc, rem) =
  Returns (acc ++ (entry course <$> fill mode margin rooms rem), left_after mode margin rooms rem).
Proof using Hmode.
  revert acc rem. induction rooms as [|r rooms IH]; intros acc rem; simpl.
  - by rewrite app_nil_r.
  - case_decide; [by rewrite app_nil_r|].
    rewrite compute_max_capacity_usable by done. simpl.
    rewrite IH. by rewrite <-app_assoc.
Qed.

Lemma fill_app rooms1 rooms2 rem :
  fill mode margin (rooms1 ++ rooms2) rem = fill mode margin rooms1 rem ++ fill mode margin rooms2 (left_after mode margin rooms1 rem).
Proof.
  revert rem. induction rooms1 as [|r rooms1 IH]; intros rem; simpl; [done|].
  case_decide as Hrem.
  - destruct rooms2; simpl; [done|]. by rewrite decide_True.
  - by rewrite IH.
Qed.

Lemma assigned_rooms_fill b9 lt item :
  assigned_rooms mode margin b9 lt item =
  Returns (entry item.1 <$> fill mode margin (b9 ++ lt) item.2).
Proof using Hmode.
  unfold assigned_rooms. rewrite assign_block_fill, bind_Returns.
  rewrite assign_block_fill, bind_Returns. simpl.
  by rewrite fill_app, fmap_app.
Qed.

Lemma allocation_plan_fill b9 lt sorted plan :
  allocation_plan mode margin b9 lt sorted plan =
  Returns (plan ++ session_plan mode margin (b9 ++ lt) sorted).
Proof using Hmode.
  unfold session_plan.
  revert plan. induction sorted as [|item sorted IH]; intros plan; simpl.
  - by rewrite app_nil_r.
  - rewrite assigned_rooms_fill, bind_Returns, IH. by rewrite <-app_assoc.
Qed.

(** *** Arithmetic of one pass *)

Lemma fill_nonpos rooms rem : rem <= 0 → fill mode margin rooms rem = [].
Proof. intros. destruct rooms; simpl; [done|]. by rewrite decide_True. Qed.

Lemma fill_sum rooms rem :
  sum_Z ((fill mode margin rooms rem).*2) = rem - left_after mode margin rooms rem.
Proof.
  revert rem. induction rooms as [|r rooms IH]; intros rem; simpl; [lia|].
  case_decide; simpl; [lia|]. rewrite IH. lia.
Qed.

Lemma left_after_bounds rooms rem : 0 <= rem → 0 <= left_after mode margin rooms rem <= rem.
Proof.
  revert rem. induction rooms as [|r rooms IH]; intros rem Hrem; simpl; [lia|].
  case_decide; [lia|].
  pose proof (usable_nonneg mode margin (Exam_Capacity r)).
  specialize (IH (rem - Z.min (usable mode margin (Exam_Capacity r)) rem)). lia.
Qed.

Lemma fill_sum_le rooms rem : 0 <= rem → 0 <= sum_Z ((fill mode margin rooms rem).*2) <= rem.
Proof.
  intros Hrem. rewrite fill_sum. pose proof (left_after_bounds rooms rem Hrem). lia.
Qed.

(** Every count is the minimum of the room's usable capacity and the
    demand left when the room is reached. *)
Lemma fill_lookup rooms rem i r k :
  fill mode margin rooms rem !! i = Some (r, k) →
  rooms !! i = Some r ∧
  0 < rem - sum_Z ((take i (fill mode margin rooms rem)).*2) ∧
  k = Z.min (usable mode margin (Exam_Capacity r))
            (rem - sum_Z ((take i (fill mode margin rooms rem)).*2)).
Proof.
  revert rem i. induction rooms as [|r0 rooms IH]; intros rem i; simpl; [done|].
  case_decide as Hrem; [done|].
  destruct i as [|i]; simpl.
  - intros [= <- <-]. split; [done|]. split; [lia|]. f_equal. lia.
  - intros Hi. apply IH in Hi as (? & ? & ?). split; [done|].
    unfold fmap in *. split; [lia|].
    subst k. f_equal. lia.
Qed.

Lemma fill_rooms_prefix rooms rem : (fill mode margin rooms rem).*1 `prefix_of` rooms.
Proof.
  revert rem. induction rooms as [|r rooms IH]; intros rem; simpl.
  - done.
  - case_decide; simpl; [apply prefix_nil|]. by apply prefix_cons.
Qed.
End pass_lemmas.

(** ** Slices and the roster ledger *)

Lemma slice_to_from {A} (k : Z) (l : list A) : slice_to k l ++ slice_from k l = l.
Proof. unfold slice_to, slice_from. case_decide; apply take_drop. Qed.

Lemma rows_of_app course p q :
  rows_of course (p ++ q) = rows_of course p ++ rows_of course q.
Proof. apply filter_app. Qed.

Lemma seated_students_app course p q :
  seated_students course (p ++ q) =
  seated_students course p ++ seated_students course q.
Proof. unfold seated_students. by rewrite rows_of_app, fmap_app, join_app. Qed.

Lemma update_seating_plan_accounted d s plan st course :
  accounted course (update_seating_plan d s plan st) = accounted course st.
Proof.
  revert st. induction plan as [|a plan IH]; intros [c2s seating]; simpl; [done|].
  destruct (c2s !! alloc_course_code a) as [ros|] eqn:Hros; rewrite IH; [|done].
  unfold accounted; simpl. rewrite seated_students_app.
  unfold seated_students at 2, rows_of. rewrite filter_cons, filter_nil. simpl.
  destruct (decide (alloc_course_code a = course)) as [<-|Hne]; simpl.
  - rewrite lookup_insert_eq, Hros. simpl.
    rewrite app_nil_r, <-app_assoc. by rewrite slice_to_from.
  - by rewrite lookup_insert_ne, app_nil_r by done.
Qed.

Lemma update_seating_plan_dom d s plan st course :
  is_Some ((update_seating_plan d s plan st).1 !! course) ↔ is_Some (st.1 !! course).
Proof.
  revert st. induction plan as [|a plan IH]; intros [c2s seating]; simpl; [done|].
  destruct (c2s !! alloc_course_code a) as [ros|] eqn:Hros; rewrite IH; [|done].
  simpl. destruct (decide (alloc_course_code a = course)) as [<-|Hne].
  - rewrite lookup_insert_eq, Hros. split; eauto.
  - by rewrite lookup_insert_ne.
Qed.

(** When every planned course has a roster, each planned allocation
    becomes one row, in order, stamped with the session. *)
Lemma update_seating_plan_rows d s plan st :
  Forall (λ a, is_Some (st.1 !! alloc_course_code a)) plan →
  ∃ news, (update_seating_plan d s plan st).2 = st.2 ++ news ∧
          alloc_of <$> news = plan ∧
          Forall (λ a, a_Date a = d ∧ a_Session a = s) news.
Proof.
  revert st. induction plan as [|a plan IH]; intros [c2s seating] Hall; simpl.
  - exists []. by rewrite app_nil_r.
  - apply Forall_cons in Hall as [[ros Hros] Hall]. simpl in Hros. rewrite Hros.
    destruct (IH (<[alloc_course_code a := slice_from (allocated a) ros]> c2s,
                  seating ++ [mkAssignment d s (alloc_course_code a) (alloc_room a)
                                (allocated a) (slice_to (allocated a) ros)]))
      as (news & Heq & Hmap & Hst).
    { eapply Forall_impl; [exact Hall|]. simpl. intros b [x Hb].
      destruct (decide (alloc_course_code a = alloc_course_code b)) as [e|Hne].
      - rewrite e, lookup_insert_eq. eauto.
      - rewrite lookup_insert_ne by done. eauto. }
    eexists (_ :: news). rewrite Heq. simpl. rewrite <-app_assoc. simpl.
    split; [done|]. split.
    + destruct a. simpl. f_equal. exact Hmap.
    + by apply Forall_cons.
Qed.

(** ** Grouping the enrolment sheet *)

Lemma roster_cons row records course :
  roster (row :: records) course =
  if decide (course_code row = course) then rollno row :: roster records course
  else roster records course.
Proof. unfold roster. rewrite filter_cons. by case_decide. Qed.

Lemma groupby_lookup records course :
  groupby records !! course =
  if decide (roster records course = []) then None
  else Some (roster records course).
Proof.
  induction records as [|row records IH]; [done|].
  rewrite roster_cons. simpl.
  destruct (decide (course_code row = course)) as [<-|Hne].
  - rewrite lookup_insert_eq, IH. rewrite (decide_False (P := _ :: _ = [])) by done.
    destruct (decide (roster records (course_code row) = [])) as [e|n]; simpl;
      [by rewrite e|done].
  - by rewrite lookup_insert_ne.
Qed.

Lemma groupby_default records course :
  default [] (groupby records !! course) = roster records course.
Proof. rewrite groupby_lookup. case_decide as H; [by rewrite H|done]. Qed.

Lemma student_count_roster records course :
  student_count (course_enrollment records) course =
  Z.of_nat (length (roster records course)).
Proof.
  unfold student_count, course_enrollment.
  rewrite lookup_fmap, groupby_lookup.
  case_decide as H; [by rewrite H|done].
Qed.

Lemma student_count_pos_enrolled records course :
  0 < student_count (course_enrollment records) course →
  is_Some (course_to_students records !! course).
Proof.
  rewrite student_count_roster. unfold course_to_students.
  rewrite groupby_lookup. case_decide as H; [rewrite H; simpl; lia|eauto].
Qed.

(** ** The sort *)

Section sort.
Context {A : Type} (before : A → A → bool).

Lemma insert_by_perm x l : insert_by before x l ≡ₚ x :: l.
Proof.
  induction l as [|y l IH]; simpl; [done|].
  destruct (before x y); [done|]. rewrite IH. apply Permutation_swap.
Qed.

Lemma sort_by_perm l : sort_by before l ≡ₚ l.
Proof.
  induction l as [|x l IH]; simpl; [done|].
  rewrite insert_by_perm. by rewrite IH.
Qed.

Hypothesis before_total : ∀ x y, before x y = false → before y x = true.
Hypothesis before_trans :
  ∀ x y z, before x y = true → before y z = true → before x z = true.

Lemma insert_by_sorted x l :
  StronglySorted (λ a b, before a b = true) l →
  StronglySorted (λ a b, before a b = true) (insert_by before x l).
Proof using before_total before_trans.
  induction 1 as [|y l Hl IH Hy]; simpl.
  - repeat constructor.
  - destruct (before x y) eqn:Hxy.
    + constructor; [by constructor|]. constructor; [done|].
      eapply Forall_impl; [exact Hy|]. simpl. eauto.
    + constructor; [done|]. rewrite insert_by_perm. constructor; [|done].
      by apply before_total.
Qed.

Lemma sort_by_sorted l :
  StronglySorted (λ a b, before a b = true) (sort_by before l).
Proof using before_total before_trans.
  induction l as [|x l IH]; simpl; [constructor|]. by apply insert_by_sorted.
Qed.
End sort.

Lemma StronglySorted_weaken {A} (R S : A → A → Prop) l :
  (∀ x y, R x y → S x y) → StronglySorted R l → StronglySorted S l.
Proof.
  intros HRS. induction 1 as [|x l Hl IH Hx]; constructor; [done|].
  eapply Forall_impl; [exact Hx|]. simpl. eauto.
Qed.

Lemma block_9_rooms_perm rooms :
  block_9_rooms rooms ≡ₚ filter (λ r, Block r = CInt 9) rooms.
Proof. apply sort_by_perm. Qed.

Lemma lt_block_rooms_perm rooms :
  lt_block_rooms rooms ≡ₚ filter (λ r, Block r = CStr "LT") rooms.
Proof. apply sort_by_perm. Qed.

Lemma block_9_rooms_sorted rooms :
  StronglySorted (λ r1 r2, Room_No r1 <= Room_No r2) (block_9_rooms rooms).
Proof.
  eapply StronglySorted_weaken; [|apply sort_by_sorted].
  - intros r1 r2 H. by apply bool_decide_eq_true in H.
  - intros x y H. apply bool_decide_eq_false in H. apply bool_decide_eq_true. lia.
  - intros x y z H1 H2. apply bool_decide_eq_true in H1, H2.
    apply bool_decide_eq_true. lia.
Qed.

Lemma lt_block_rooms_sorted rooms :
  StronglySorted (λ r1 r2, Exam_Capacity r2 <= Exam_Capacity r1)
                 (lt_block_rooms rooms).
Proof.
  eapply StronglySorted_weaken; [|apply sort_by_sorted].
  - intros r1 r2 H. by apply bool_decide_eq_true in H.
  - intros x y H. apply bool_decide_eq_false in H. apply bool_decide_eq_true. lia.
  - intros x y z H1 H2. apply bool_decide_eq_true in H1, H2.
    apply bool_decide_eq_true. lia.
Qed.

Lemma room_order_in_catalog rooms r : r ∈ room_order rooms → r ∈ rooms.
Proof.
  unfold room_order. rewrite elem_of_app.
  rewrite block_9_rooms_perm, lt_block_rooms_perm, !list_elem_of_filter.
  tauto.
Qed.

(** ** The dictionary of counts *)

Section counts.
Variable f : string → Z.

Lemma dict_set_keys d k c :
  c ∈ (dict_set d k (f k)).*1 ↔ c ∈ d.*1 ∨ c = k.
Proof.
  induction d as [|[k' v'] d IH]; simpl.
  - rewrite list_elem_of_singleton, elem_of_nil. tauto.
  - case_decide as Hk; simpl; rewrite !elem_of_cons.
    + subst k'. tauto.
    + rewrite IH. tauto.
Qed.

Lemma dict_set_NoDup d k : NoDup d.*1 → NoDup (dict_set d k (f k)).*1.
Proof.
  induction d as [|[k' v'] d IH]; simpl; intros Hd.
  - apply NoDup_singleton.
  - apply NoDup_cons in Hd as [Hk' Hd]. case_decide as Hk; simpl.
    + subst k'. by apply NoDup_cons.
    + apply NoDup_cons. split; [|by apply IH].
      rewrite dict_set_keys. intros [?|?]; [done|]. by subst.
Qed.

Lemma dict_set_items d k c n :
  (∀ c n, (c, n) ∈ d → n = f c) →
  (c, n) ∈ dict_set d k (f k) ↔ (c, n) ∈ d ∨ (c = k ∧ n = f k).
Proof.
  induction d as [|[k' v'] d IH]; simpl; intros Hd.
  - rewrite list_elem_of_singleton, elem_of_nil. split.
    + intros [= -> ->]. by right.
    + intros [[]|[-> ->]]. done.
  - case_decide as Hk; rewrite !elem_of_cons.
    + subst k'. pose proof (Hd k v' ltac:(left)) as ->. split.
      * intros [[= -> ->]|?]; [right|left; right]; done.
      * intros [[[= -> ->]|?]|[-> ->]]; [left|right|left]; done.
    + rewrite IH by (intros ?? ?; apply Hd; by right). tauto.
Qed.

Lemma counts_from d0 cs :
  NoDup d0.*1 → (∀ c n, (c, n) ∈ d0 → n = f c) →
  let d := foldl (λ d course, dict_set d course (f course)) d0 cs in
  NoDup d.*1 ∧ ∀ c n, (c, n) ∈ d ↔ (c, n) ∈ d0 ∨ (c ∈ cs ∧ n = f c).
Proof.
  revert d0. induction cs as [|k cs IH]; intros d0 Hnd Hd0; simpl.
  - split; [done|]. intros c n. rewrite elem_of_nil. tauto.
  - destruct (IH (dict_set d0 k (f k))) as [Hnd' Hitems].
    { by apply dict_set_NoDup. }
    { intros c n. rewrite dict_set_items by done. intros [?|[-> ->]]; eauto. }
    split; [done|]. intros c n. rewrite Hitems, dict_set_items by done.
    rewrite elem_of_cons. intuition (subst; auto).
Qed.
End counts.

Lemma course_student_counts_spec ce cs :
  NoDup (course_student_counts ce cs).*1 ∧
  ∀ c n, (c, n) ∈ course_student_counts ce cs ↔ c ∈ cs ∧ n = student_count ce c.
Proof.
  destruct (counts_from (student_count ce) [] cs) as [Hnd Hitems].
  { constructor. } { intros ??. by rewrite elem_of_nil. }
  split; [done|]. intros c n. unfold course_student_counts.
  rewrite Hitems, elem_of_nil. tauto.
Qed.

Lemma sorted_courses_spec ce cs :
  NoDup (sorted_courses (course_student_counts ce cs)).*1 ∧
  ∀ c n, (c, n) ∈ sorted_courses (course_student_counts ce cs) ↔
         c ∈ cs ∧ n = student_count ce c.
Proof.
  destruct (course_student_counts_spec ce cs) as [Hnd Hitems].
  unfold sorted_courses. split.
  - by rewrite sort_by_perm.
  - intros c n. by rewrite sort_by_perm.
Qed.

(** ** The schedule loop as a fold over the held sessions *)

Lemma passes_cons ce sess sessions :
  passes ce (sess :: sessions) = passes ce [sess] ++ passes ce sessions.
Proof.
  unfold passes. rewrite !bind_cons.
  change ([] ≫= _) with (@nil (Z * session_label * (string * Z))).
  by rewrite app_nil_r.
Qed.

Lemma split_rows {A B C} (g : A → B) (h : C → list B) (P : A → Prop)
    (l : list A) (items : list C) :
  g <$> l = items ≫= h → Forall P l →
  ∃ segs, l = mjoin segs ∧
          Forall2 (λ seg it, g <$> seg = h it ∧ Forall P seg) segs items.
Proof.
  revert l. induction items as [|it items IH]; intros l Hl HP.
  - apply fmap_nil_inv in Hl as ->. by exists [].
  - rewrite bind_cons in Hl. apply fmap_app_inv in Hl as (l1 & l2 & H1 & H2 & ->).
    apply Forall_app in HP as [HP1 HP2].
    destruct (IH l2) as (segs & -> & Hsegs); [done..|].
    exists (l1 :: segs). split; [done|]. by constructor.
Qed.

Section schedule.
Variable mode : string.
Variable margin : Z.
Hypothesis Hmode : mode = "dense" ∨ mode = "sparse".
Variable ce : gmap string Z.
Variables b9 lt : list Room.

Lemma run_row_fold row st :
  run_row mode margin ce b9 lt row st =
  Returns (foldl (seat_session mode margin ce b9 lt) st (held_cells row)).
Proof using Hmode.
  unfold run_row, run_session, held_cells.
  destruct (Morning_cell row), (Evening_cell row); simpl;
    rewrite ?allocation_plan_fill by done; simpl;
    rewrite ?allocation_plan_fill by done; done.
Qed.

Lemma run_schedule_fold rows st :
  run_schedule mode margin ce b9 lt rows st =
  Returns (foldl (seat_session mode margin ce b9 lt) st (held_sessions rows)).
Proof using Hmode.
  revert st. induction rows as [|row rows IH]; intros st; [done|].
  unfold held_sessions. rewrite bind_cons, foldl_app.
  cbn [run_schedule]. rewrite run_row_fold, bind_Returns. apply IH.
Qed.

Lemma seat_session_counted st sess :
  counted_have_roster ce st → counted_have_roster ce (seat_session mode margin ce b9 lt st sess).
Proof.
  intros H c Hc. unfold seat_session. rewrite update_seating_plan_dom. by apply H.
Qed.

Lemma seat_session_rows st sess :
  counted_have_roster ce st →
  ∃ segs, (seat_session mode margin ce b9 lt st sess).2 = st.2 ++ mjoin segs ∧
          Forall2 (pass_rows mode margin b9 lt) segs (passes ce [sess]).
Proof.
  intros Hst. unfold seat_session.
  destruct (update_seating_plan_rows sess.1.1 sess.1.2
              (session_plan mode margin (b9 ++ lt)
                 (sorted_courses (course_student_counts ce sess.2))) st)
    as (news & Heq & Hmap & Hstamp).
  { apply Forall_forall. intros a Ha. unfold session_plan in Ha.
    apply list_elem_of_bind in Ha as ([c n] & Ha & Hitem). simpl in Ha.
    apply list_elem_of_fmap in Ha as ([r k] & -> & Hrk). simpl.
    apply Hst. apply sorted_courses_spec in Hitem as [_ <-].
    destruct (decide (n <= 0)) as [Hn|Hn]; [|lia].
    rewrite fill_nonpos in Hrk by done. by apply elem_of_nil in Hrk. }
  destruct (split_rows alloc_of
              (λ item : string * Z, entry item.1 <$> fill mode margin (b9 ++ lt) item.2)
              (λ a, a_Date a = sess.1.1 ∧ a_Session a = sess.1.2)
              news (sorted_courses (course_student_counts ce sess.2)))
    as (segs & -> & Hsegs); [done..|].
  exists segs. split; [done|].
  unfold passes. rewrite bind_cons.
  change ([] ≫= _) with (@nil (Z * session_label * (string * Z))).
  rewrite app_nil_r.
  apply Forall2_fmap_r. eapply Forall2_impl; [exact Hsegs|]. done.
Qed.

Lemma fold_sessions_rows sessions st :
  counted_have_roster ce st →
  ∃ segs, (foldl (seat_session mode margin ce b9 lt) st sessions).2 = st.2 ++ mjoin segs ∧
          Forall2 (pass_rows mode margin b9 lt) segs (passes ce sessions).
Proof.
  revert st. induction sessions as [|sess sessions IH]; intros st Hst.
  - exists []. simpl. rewrite app_nil_r. split; [done|constructor].
  - cbn [foldl].
    destruct (seat_session_rows st sess Hst) as (segs1 & Heq1 & Hsegs1).
    destruct (IH (seat_session mode margin ce b9 lt st sess)) as (segs2 & Heq2 & Hsegs2).
    { by apply seat_session_counted. }
    exists (segs1 ++ segs2). rewrite Heq2, Heq1, join_app, <-app_assoc.
    split; [done|].
    rewrite passes_cons. by apply Forall2_app.
Qed.

Lemma fold_sessions_accounted sessions st course :
  accounted course (foldl (seat_session mode margin ce b9 lt) st sessions) = accounted course st.
Proof.
  revert st. induction sessions as [|sess sessions IH]; intros st; simpl; [done|].
  rewrite IH. apply update_seating_plan_accounted.
Qed.
End schedule.

(** ** [main] *)

(** [main] raises nothing and returns that plan. *)
Lemma main_returns inp : main inp = Returns (seating_plan inp).
Proof.
  unfold main. rewrite run_schedule_fold by apply default_mode_recognised. done.
Qed.

(** The plan is the concatenation of one segment of rows per pass. *)
Lemma seating_plan_segments inp :
  ∃ segs, seating_plan inp = mjoin segs ∧
          Forall2 (pass_rows (default_mode (arrangement_mode inp)) (seat_margin inp)
                     (block_9_rooms (room_details inp))
                     (lt_block_rooms (room_details inp)))
                  segs (run_passes inp).
Proof.
  unfold seating_plan, run_passes.
  destruct (fold_sessions_rows
              (default_mode (arrangement_mode inp)) (seat_margin inp)
              (course_enrollment (student_records inp))
              (block_9_rooms (room_details inp)) (lt_block_rooms (room_details inp))
              (held_sessions (schedule_details inp))
              (course_to_students (student_records inp), []))
    as (segs & Heq & Hsegs).
  { intros c Hc. by apply student_count_pos_enrolled. }
  exists segs. split; [by rewrite Heq|exact Hsegs].
Qed.

Lemma seating_plan_accounted inp course :
  ∃ rest, roster (student_records inp) course =
          seated_students course (seating_plan inp) ++ rest.
Proof.
  unfold seating_plan.
  set (st := foldl _ _ _).
  exists (default [] (st.1 !! course)).
  change (roster (student_records inp) course = accounted course st).
  unfold st. rewrite fold_sessions_accounted.
  unfold accounted, course_to_students. simpl. by rewrite groupby_default.
Qed.

(** ** Reading one pass *)

Lemma sum_Z_app l1 l2 : sum_Z (l1 ++ l2) = sum_Z l1 + sum_Z l2.
Proof. induction l1 as [|x l1 IH]; simpl; lia. Qed.

Lemma pass_rows_columns mode margin b9 lt seg p :
  pass_rows mode margin b9 lt seg p →
  Course_Code <$> seg = (λ _, p.2.1) <$> fill mode margin (b9 ++ lt) p.2.2 ∧
  Room_ <$> seg = Room_No <$> (fill mode margin (b9 ++ lt) p.2.2).*1 ∧
  Allocated_Students <$> seg = (fill mode margin (b9 ++ lt) p.2.2).*2.
Proof.
  intros [Hmap _].
  split; [|split].
  - apply (f_equal (fmap alloc_course_code)) in Hmap.
    rewrite <-!list_fmap_compose in Hmap. exact Hmap.
  - apply (f_equal (fmap alloc_room)) in Hmap.
    rewrite <-!list_fmap_compose in Hmap. rewrite <-list_fmap_compose. exact Hmap.
  - apply (f_equal (fmap allocated)) in Hmap.
    rewrite <-!list_fmap_compose in Hmap. exact Hmap.
Qed.

(** The [i]-th row of a pass sits in the [i]-th room of the visiting
    order and holds the minimum of that room's usable capacity and the
    demand the earlier rows of the pass have left. *)
Lemma pass_rows_lookup mode margin b9 lt seg p i a :
  pass_rows mode margin b9 lt seg p → seg !! i = Some a →
  ∃ r, (b9 ++ lt) !! i = Some r ∧
       a_Date a = p.1.1 ∧ a_Session a = p.1.2 ∧
       Course_Code a = p.2.1 ∧ Room_ a = Room_No r ∧
       0 < p.2.2 - sum_Z (Allocated_Students <$> take i seg) ∧
       Allocated_Students a =
         Z.min (usable mode margin (Exam_Capacity r))
               (p.2.2 - sum_Z (Allocated_Students <$> take i seg)).
Proof.
  intros Hp Ha. pose proof (pass_rows_columns _ _ _ _ _ _ Hp) as (Hc & Hr & Hk).
  destruct Hp as [Hmap Hstamp].
  pose proof (f_equal (λ l, l !! i) Hmap) as Hi. simpl in Hi.
  rewrite !list_lookup_fmap, Ha in Hi. simpl in Hi.
  destruct (fill mode margin (b9 ++ lt) p.2.2 !! i) as [[r k]|] eqn:Hfill; [|done].
  simpl in Hi. injection Hi as Hcc Hrr Hkk.
  apply fill_lookup in Hfill as (Hroom & Hpos & Hmin).
  rewrite fmap_take, <-Hk, <-fmap_take in Hpos, Hmin.
  exists r. split; [done|].
  pose proof (proj1 (Forall_lookup _ _) Hstamp i a Ha) as [Hd Hs].
  repeat split; try done. congruence.
Qed.

(** ** The allocation columns of the whole plan *)

Section plan_allocations.
Variable mode : string.
Variable margin : Z.
Variable ce : gmap string Z.
Variables b9 lt : list Room.

Lemma session_plan_enrolled st sorted :
  counted_have_roster ce st →
  (∀ c n, (c, n) ∈ sorted → n = student_count ce c) →
  Forall (λ a, is_Some (st.1 !! alloc_course_code a))
         (session_plan mode margin (b9 ++ lt) sorted).
Proof.
  intros Hst Hsorted. apply Forall_forall. intros a Ha. unfold session_plan in Ha.
  apply list_elem_of_bind in Ha as ([c n] & Ha & Hitem). simpl in Ha.
  apply list_elem_of_fmap in Ha as ([r k] & -> & Hrk). simpl.
  apply Hst. rewrite <-(Hsorted c n Hitem).
  destruct (decide (n <= 0)) as [Hn|Hn]; [|lia].
  rewrite fill_nonpos in Hrk by done. by apply elem_of_nil in Hrk.
Qed.

Lemma fold_sessions_allocations sessions st :
  counted_have_roster ce st →
  alloc_of <$> (foldl (seat_session mode margin ce b9 lt) st sessions).2 =
  (alloc_of <$> st.2) ++
  (sessions ≫= (λ sess, session_plan mode margin (b9 ++ lt)
                          (sorted_courses (course_student_counts ce sess.2)))).
Proof.
  revert st. induction sessions as [|sess sessions IH]; intros st Hst.
  - simpl. by rewrite app_nil_r.
  - cbn [foldl]. rewrite IH by by apply seat_session_counted.
    rewrite bind_cons, app_assoc. f_equal.
    unfold seat_session.
    destruct (update_seating_plan_rows sess.1.1 sess.1.2
                (session_plan mode margin (b9 ++ lt)
                   (sorted_courses (course_student_counts ce sess.2))) st)
      as (news & -> & Hmap & _).
    { apply session_plan_enrolled; [done|].
      intros c n Hcn. by apply sorted_courses_spec in Hcn as [_ ->]. }
    by rewrite fmap_app, Hmap.
Qed.
End plan_allocations.

Lemma seating_plan_allocations inp :
  alloc_of <$> seating_plan inp =
  held_sessions (schedule_details inp) ≫= (λ sess,
    session_plan (default_mode (arrangement_mode inp)) (seat_margin inp)
      (room_order (room_details inp))
      (sorted_courses
         (course_student_counts (course_enrollment (student_records inp)) sess.2))).
Proof.
  unfold seating_plan. rewrite fold_sessions_allocations; [done|].
  intros c Hc. by apply student_count_pos_enrolled.
Qed.

(** * The properties *)

(** ** The capacity model *)

(** C6: for a room size [s] that is not negative and any margin [m],
    [compute_max_capacity] returns [max(0, s - m)] in dense mode and
    [max(1, s // 2 - m)] in sparse mode; the sparse value is at least 1,
    and the dense value can be 0 (it is when the margin equals the size). *)
Theorem compute_max_capacity_formula (s m : Z) :
  0 <= s →
  compute_max_capacity s "dense" m = Returns (PyInt (Z.max 0 (s - m))) ∧
  compute_max_capacity s "sparse" m = Returns (PyInt (Z.max 1 (s / 2 - m))) ∧
  1 <= Z.max 1 (s / 2 - m) ∧
  compute_max_capacity s "dense" s = Returns (PyInt 0).
Proof.
  intros Hs. unfold compute_max_capacity. simpl.
  repeat split; [lia|]. do 2 f_equal. lia.
Qed.

Lemma compute_max_capacity_formula_witness :
  0 <= 3 ∧
  (compute_max_capacity 3 "dense" 1 = Returns (PyInt (Z.max 0 (3 - 1))) ∧
   compute_max_capacity 3 "sparse" 1 = Returns (PyInt (Z.max 1 (3 / 2 - 1))) ∧
   1 <= Z.max 1 (3 / 2 - 1) ∧
   compute_max_capacity 3 "dense" 3 = Returns (PyInt 0)).
Proof.
  split; [lia | apply (compute_max_capacity_formula 3 1); lia].
Defined.

(** C7, as the code has it: for a mode other than dense and sparse
    [compute_max_capacity] raises nothing; both tests fail and the call
    returns [None]. *)
Theorem compute_max_capacity_unrecognised (s m : Z) (mode : string) :
  mode ≠ "dense" → mode ≠ "sparse" →
  compute_max_capacity s mode m = Returns PyNone.
Proof.
  intros Hd Hs. unfold compute_max_capacity.
  rewrite decide_False by done. rewrite decide_False by done. done.
Qed.

Lemma compute_max_capacity_unrecognised_witness :
  "compact" ≠ "dense" ∧ "compact" ≠ "sparse" ∧
  compute_max_capacity 40 "compact" 0 = Returns PyNone.
Proof.
  split; [discriminate|]. split; [discriminate|].
  apply (compute_max_capacity_unrecognised 40 0 "compact"); discriminate.
Defined.

(** C7 as stated fails: the mode compact is not recognised, and the call
    does not raise InvalidModeError. *)
Lemma compute_max_capacity_raises_nothing :
  "compact" ≠ "dense" ∧ "compact" ≠ "sparse" ∧
  compute_max_capacity 40 "compact" 0 ≠ Raises "InvalidModeError".
Proof. repeat split; discriminate. Qed.

(** ** Rosters *)

(** C4: [main] returns a plan in which, for every course, the Students
    lists of the course's rows, concatenated in row order, are a prefix of
    the course's original roster. *)
Theorem seated_students_prefix_of_roster (inp : Input) :
  ∃ plan, main inp = Returns plan ∧
    ∀ course,
      seated_students course plan `prefix_of`
      default [] (course_to_students (student_records inp) !! course).
Proof.
  exists (seating_plan inp). split; [apply main_returns|].
  intros course. unfold course_to_students. rewrite groupby_default.
  destruct (seating_plan_accounted inp course) as [rest ->].
  by exists rest.
Qed.

(** C5, as the code has it: the count that ranks and allocates a course
    is the course's count in the enrolment sheet, the length of its
    original roster, whatever earlier sessions have seated; it is 0 for a
    course that the sheet does not have, and [main] raises nothing. *)
Theorem ranking_uses_enrollment_counts (inp : Input) :
  (∃ plan, main inp = Returns plan) ∧
  ∀ cs course n,
    (course, n) ∈ sorted_courses
      (course_student_counts (course_enrollment (student_records inp)) cs) ↔
    course ∈ cs ∧
    n = pending_count (course_to_students (student_records inp)) course ∧
    (course_to_students (student_records inp) !! course = None → n = 0).
Proof.
  split; [exists (seating_plan inp); apply main_returns|].
  intros cs course n.
  destruct (sorted_courses_spec (course_enrollment (student_records inp)) cs)
    as [_ ->].
  rewrite student_count_roster. unfold pending_count, course_to_students.
  rewrite groupby_default. split.
  - intros [? ->]. split; [done|]. split; [done|].
    rewrite groupby_lookup. case_decide as Hnil; [by rewrite Hnil|done].
  - intros (? & -> & _). done.
Qed.

(** C5 as stated fails: when the second date of the schedule starts, the
    course listed twice has no pending student, yet it is ranked with its
    enrolment count 2. *)
Lemma counts_are_not_pending : ¬ counts_are_pending scenario_listed_twice.
Proof.
  intros H.
  specialize (H [mkSchedule 1 (Some ["X"]) None] (mkSchedule 2 (Some ["X"]) None) []
                _ ["X"] "X" 2 eq_refl eq_refl eq_refl).
  vm_compute in H.
  assert (2 = 0) as Hf by (apply H; constructor).
  discriminate Hf.
Qed.

(** ** Counts *)

Section totals.
Variable mode : string.
Variable margin : Z.

Lemma entries_total_app course l1 l2 :
  entries_total course (l1 ++ l2) =
  entries_total course l1 + entries_total course l2.
Proof. unfold entries_total. by rewrite filter_app, fmap_app, sum_Z_app. Qed.

Lemma entries_total_pass course c rooms n :
  entries_total course (entry c <$> fill mode margin rooms n) =
  if decide (c = course) then sum_Z ((fill mode margin rooms n).*2) else 0.
Proof.
  unfold entries_total.
  induction (fill mode margin rooms n) as [|[r k] l IH]; simpl.
  - by case_decide.
  - rewrite filter_cons. simpl. case_decide; simpl; unfold fmap in *; lia.
Qed.

Lemma entries_total_session course f rooms items :
  NoDup items.*1 → (∀ c n, (c, n) ∈ items → n = f c) → 0 <= f course →
  0 <= entries_total course (session_plan mode margin rooms items) <=
  if decide (course ∈ items.*1) then f course else 0.
Proof.
  intros Hnd Hf Hpos. unfold session_plan.
  induction items as [|[c n] items IH].
  - simpl. unfold entries_total. simpl. lia.
  - rewrite bind_cons, entries_total_app, entries_total_pass. simpl.
    apply NoDup_cons in Hnd as [Hc Hnd].
    specialize (IH Hnd (λ c' n' H', Hf c' n' (list_elem_of_further _ _ _ H'))).
    destruct (decide (c = course)) as [->|Hne].
    + rewrite decide_True by left.
      rewrite (decide_False (P := course ∈ items.*1)) in IH by done.
      pose proof (Hf course n ltac:(left)) as ->.
      pose proof (fill_sum_le mode margin rooms (f course) Hpos). lia.
    + destruct (decide (course ∈ items.*1)) as [Hin|Hnin].
      * rewrite decide_True by by right. lia.
      * rewrite decide_False; [lia|]. rewrite elem_of_cons. intros [?|?]; by subst.
Qed.
End totals.

Lemma total_allocated_entries course plan :
  total_allocated course plan = entries_total course (alloc_of <$> plan).
Proof.
  unfold total_allocated, entries_total, rows_of.
  induction plan as [|a plan IH]; [done|].
  rewrite fmap_cons, !filter_cons. simpl.
  case_decide; simpl; unfold fmap in *; by rewrite IH.
Qed.

(** C3, as the code has it: the Allocated_Students column of a course
    sums to at most the course's enrolment count times the number of held
    sessions that list the course, so to at most the enrolment count for a
    course listed once; the students actually named in its rows never
    outnumber the enrolment. *)
Theorem allocated_within_enrollment_per_listing (inp : Input) :
  ∃ plan, main inp = Returns plan ∧
    ∀ course,
      0 <= total_allocated course plan <=
        student_count (course_enrollment (student_records inp)) course *
        Z.of_nat (sessions_listing course inp) ∧
      Z.of_nat (length (seated_students course plan)) <=
        student_count (course_enrollment (student_records inp)) course.
Proof.
  exists (seating_plan inp). split; [apply main_returns|].
  intros course. split.
  - rewrite total_allocated_entries, seating_plan_allocations.
    unfold sessions_listing.
    pose proof (student_count_roster (student_records inp) course) as Hcount.
    induction (held_sessions (schedule_details inp)) as [|sess sessions IH].
    + simpl. unfold entries_total. simpl. lia.
    + rewrite bind_cons, entries_total_app, filter_cons.
      destruct (sorted_courses_spec (course_enrollment (student_records inp)) sess.2)
        as [Hnd Hitems].
      pose proof (entries_total_session
                    (default_mode (arrangement_mode inp)) (seat_margin inp) course
                    (student_count (course_enrollment (student_records inp)))
                    (room_order (room_details inp)) _ Hnd) as Hsess.
      destruct Hsess as [Hlo Hhi].
      { intros c n Hcn. by apply Hitems in Hcn as [_ ->]. }
      { lia. }
      destruct (decide (course ∈ sess.2)) as [Hin|Hnin].
      * rewrite decide_True in Hhi.
        2:{ apply list_elem_of_fmap. eexists (course, _). split; [done|].
            apply Hitems. done. }
        simpl length. lia.
      * rewrite decide_False in Hhi.
        2:{ intros Hk. apply list_elem_of_fmap in Hk as ([c n] & -> & Hcn).
            apply Hitems in Hcn as [? _]. done. }
        lia.
  - rewrite student_count_roster.
    destruct (seating_plan_accounted inp course) as [rest ->].
    rewrite length_app. lia.
Qed.

(** C3 as stated fails: the course listed on two dates has 2 students and
    its rows allocate 4. *)
Lemma allocated_exceeds_enrollment :
  ¬ allocated_within_enrollment scenario_listed_twice.
Proof.
  intros H. specialize (H _ "X" eq_refl). vm_compute in H. by apply H.
Qed.

(** ** Rows, rooms and capacities *)

Lemma seating_plan_row inp a :
  a ∈ seating_plan inp →
  ∃ r rem, r ∈ room_order (room_details inp) ∧ Room_ a = Room_No r ∧ 0 < rem ∧
    Allocated_Students a =
      Z.min (usable (default_mode (arrangement_mode inp)) (seat_margin inp)
               (Exam_Capacity r)) rem.
Proof.
  intros Ha. destruct (seating_plan_segments inp) as (segs & Heq & Hsegs).
  rewrite Heq in Ha. apply list_elem_of_join in Ha as (seg & Ha & Hseg).
  apply list_elem_of_lookup in Hseg as [j Hj].
  destruct (Forall2_lookup_l _ _ _ _ _ Hsegs Hj) as (p & _ & Hp).
  apply list_elem_of_lookup in Ha as [i Hi].
  destruct (pass_rows_lookup _ _ _ _ _ _ _ _ Hp Hi)
    as (r & Hr & _ & _ & _ & Hroom & Hpos & Hmin).
  exists r, (p.2.2 - sum_Z (Allocated_Students <$> take i seg)).
  split; [|done]. by apply list_elem_of_lookup_2 in Hr.
Qed.

(** C10: every row of the plan that [main] returns seats at most what
    [compute_max_capacity] gives for the raw capacity of a room of the
    sheet with the row's number; more precisely, the [i]-th row of a pass
    is in the [i]-th room of the visiting order and holds the minimum of
    that room's computed capacity and the pass's count less the earlier
    rows of the pass. *)
Theorem allocation_capped_by_capacity (inp : Input) :
  ∃ plan segs, main inp = Returns plan ∧ plan = mjoin segs ∧
    Forall (λ a, ∃ r u,
              r ∈ room_details inp ∧ Room_ a = Room_No r ∧
              compute_max_capacity (Exam_Capacity r)
                (default_mode (arrangement_mode inp)) (seat_margin inp)
                = Returns (PyInt u) ∧
              Allocated_Students a <= u) plan ∧
    Forall2 (λ seg p, ∀ i a, seg !! i = Some a →
               ∃ r u,
                 room_order (room_details inp) !! i = Some r ∧
                 Course_Code a = p.2.1 ∧ Room_ a = Room_No r ∧
                 compute_max_capacity (Exam_Capacity r)
                   (default_mode (arrangement_mode inp)) (seat_margin inp)
                   = Returns (PyInt u) ∧
                 Allocated_Students a =
                   Z.min u (p.2.2 - sum_Z (Allocated_Students <$> take i seg)))
            segs (run_passes inp).
Proof.
  destruct (seating_plan_segments inp) as (segs & Heq & Hsegs).
  exists (seating_plan inp), segs.
  split; [apply main_returns|]. split; [done|]. split.
  - apply Forall_forall. intros a Ha.
    apply seating_plan_row in Ha as (r & rem & Hr & Hroom & _ & Hmin).
    exists r, (usable (default_mode (arrangement_mode inp)) (seat_margin inp)
                 (Exam_Capacity r)).
    split; [by apply room_order_in_catalog|]. split; [done|].
    split; [apply compute_max_capacity_usable, default_mode_recognised|lia].
  - eapply Forall2_impl; [exact Hsegs|]. intros seg p Hp i a Hi.
    destruct (pass_rows_lookup _ _ _ _ _ _ _ _ Hp Hi)
      as (r & Hr & _ & _ & Hc & Hroom & _ & Hmin).
    exists r, (usable (default_mode (arrangement_mode inp)) (seat_margin inp)
                 (Exam_Capacity r)).
    split; [done|]. split; [done|]. split; [done|].
    split; [apply compute_max_capacity_usable, default_mode_recognised|done].
Qed.

Lemma join_fmap_bind {A B} (f : A → list B) (l : list A) :
  mjoin (f <$> l) = l ≫= f.
Proof. induction l as [|x l IH]; [done|]. by rewrite fmap_cons, bind_cons, <-IH. Qed.

(** C8, as the code has it: every entry of every session's allocation
    plan becomes one row, whatever its count.  A row's count is never
    negative; it is 0 exactly when the computed capacity of its room is 0,
    and it is positive throughout in sparse mode. *)
Theorem rows_for_all_allocations (inp : Input) :
  ∃ plan plans, main inp = Returns plan ∧
    Forall2 (λ ap sess,
               allocation_plan (default_mode (arrangement_mode inp)) (seat_margin inp)
                 (block_9_rooms (room_details inp)) (lt_block_rooms (room_details inp))
                 (sorted_courses
                    (course_student_counts
                       (course_enrollment (student_records inp)) sess.2)) []
               = Returns ap)
            plans (held_sessions (schedule_details inp)) ∧
    alloc_of <$> plan = mjoin plans ∧
    Forall (λ a, 0 <= Allocated_Students a ∧
                 (default_mode (arrangement_mode inp) = "sparse" →
                  0 < Allocated_Students a) ∧
                 ∃ r, r ∈ room_details inp ∧ Room_ a = Room_No r ∧
                      (Allocated_Students a = 0 ↔
                       compute_max_capacity (Exam_Capacity r)
                         (default_mode (arrangement_mode inp)) (seat_margin inp)
                         = Returns (PyInt 0))) plan.
Proof.
  exists (seating_plan inp).
  exists ((λ sess : Z * session_label * list string,
             session_plan (default_mode (arrangement_mode inp)) (seat_margin inp)
               (room_order (room_details inp))
               (sorted_courses
                  (course_student_counts
                     (course_enrollment (student_records inp)) sess.2)))
            <$> held_sessions (schedule_details inp)).
  split; [apply main_returns|]. split; [|split].
  - apply Forall2_fmap_l, Forall_Forall2_diag, Forall_forall. intros sess _.
    simpl. rewrite allocation_plan_fill by apply default_mode_recognised. done.
  - rewrite join_fmap_bind. apply seating_plan_allocations.
  - apply Forall_forall. intros a Ha.
    apply seating_plan_row in Ha as (r & rem & Hr & Hroom & Hrem & Hmin).
    pose proof (usable_nonneg (default_mode (arrangement_mode inp))
                  (seat_margin inp) (Exam_Capacity r)) as Hu.
    split; [lia|]. split.
    + intros Hsparse. rewrite Hsparse in Hmin.
      pose proof (usable_sparse_pos (seat_margin inp) (Exam_Capacity r)). lia.
    + exists r. split; [by apply room_order_in_catalog|]. split; [done|].
      rewrite compute_max_capacity_usable by apply default_mode_recognised.
      split; [intros ?; do 2 f_equal; lia|intros [= Hz]; lia].
Qed.

(** C8 as stated fails: with margin 5 the room of capacity 5 has no usable
    seat, and the plan still has a row for it, with count 0. *)
Lemma row_with_zero_count : ¬ all_rows_positive scenario_no_usable_seat.
Proof.
  intros H. specialize (H _ eq_refl). vm_compute in H.
  inversion H as [|a l Ha _]. discriminate Ha.
Qed.

(** ** The visiting order *)

Lemma fill_all_visited mode margin rooms rem :
  0 < left_after mode margin rooms rem → (fill mode margin rooms rem).*1 = rooms.
Proof.
  revert rem. induction rooms as [|r rooms IH]; intros rem; simpl; [done|].
  case_decide; [lia|]. intros Hleft. simpl. f_equal. by apply IH.
Qed.

Lemma prefix_of_fmap {A B} (f : A → B) (l1 l2 : list A) :
  l1 `prefix_of` l2 → f <$> l1 `prefix_of` f <$> l2.
Proof. intros [k ->]. exists (f <$> k). apply fmap_app. Qed.

(** A pass stops inside the first block, or visits all of it and then a
    prefix of the second. *)
Lemma fill_two_blocks mode margin b9 lt rem :
  (fill mode margin (b9 ++ lt) rem).*1 `prefix_of` b9 ∨
  ∃ rest, (fill mode margin (b9 ++ lt) rem).*1 = b9 ++ rest ∧ rest `prefix_of` lt.
Proof.
  rewrite fill_app, fmap_app.
  destruct (decide (left_after mode margin b9 rem <= 0)) as [Hle|Hgt].
  - left. rewrite (fill_nonpos _ _ lt) by done. simpl. rewrite app_nil_r.
    apply fill_rooms_prefix.
  - right. exists (fill mode margin lt (left_after mode margin b9 rem)).*1.
    rewrite fill_all_visited by lia. split; [done|]. apply fill_rooms_prefix.
Qed.

(** C9: the Block 9 rooms are visited in ascending room number and the LT
    rooms in descending raw capacity; the rows of each pass (one course in
    one session) occupy a prefix of the Block 9 rooms in that order, or all
    Block 9 rooms followed by a prefix of the LT rooms in that order, so no
    row is in an LT room unless the pass has a row in every Block 9 room
    before it. *)
Theorem primary_rooms_before_overflow (inp : Input) :
  block_9_rooms (room_details inp) ≡ₚ
    filter (λ r, Block r = CInt 9) (room_details inp) ∧
  StronglySorted (λ r1 r2, Room_No r1 <= Room_No r2)
    (block_9_rooms (room_details inp)) ∧
  lt_block_rooms (room_details inp) ≡ₚ
    filter (λ r, Block r = CStr "LT") (room_details inp) ∧
  StronglySorted (λ r1 r2, Exam_Capacity r2 <= Exam_Capacity r1)
    (lt_block_rooms (room_details inp)) ∧
  ∃ plan segs, main inp = Returns plan ∧ plan = mjoin segs ∧
    Forall2 (λ seg p,
               Forall (λ a, a_Date a = p.1.1 ∧ a_Session a = p.1.2 ∧
                            Course_Code a = p.2.1) seg ∧
               (Room_ <$> seg `prefix_of`
                  Room_No <$> block_9_rooms (room_details inp) ∨
                ∃ rest,
                  Room_ <$> seg =
                    (Room_No <$> block_9_rooms (room_details inp)) ++ rest ∧
                  rest `prefix_of` Room_No <$> lt_block_rooms (room_details inp)))
            segs (run_passes inp).
Proof.
  split; [apply block_9_rooms_perm|]. split; [apply block_9_rooms_sorted|].
  split; [apply lt_block_rooms_perm|]. split; [apply lt_block_rooms_sorted|].
  destruct (seating_plan_segments inp) as (segs & Heq & Hsegs).
  exists (seating_plan inp), segs.
  split; [apply main_returns|]. split; [done|].
  eapply Forall2_impl; [exact Hsegs|]. intros seg p Hp. split.
  - apply Forall_lookup. intros i a Hi.
    destruct (pass_rows_lookup _ _ _ _ _ _ _ _ Hp Hi) as (r & _ & ? & ? & ? & _).
    done.
  - destruct (pass_rows_columns _ _ _ _ _ _ Hp) as (_ & -> & _).
    destruct (fill_two_blocks (default_mode (arrangement_mode inp)) (seat_margin inp)
                (block_9_rooms (room_details inp)) (lt_block_rooms (room_details inp))
                p.2.2) as [Hpre | (rest & -> & Hpre)].
    + left. by apply prefix_of_fmap.
    + right. exists (Room_No <$> rest). rewrite fmap_app. split; [done|].
      by apply prefix_of_fmap.
Qed.

(** ** Rooms keep no remaining capacity *)

Lemma bind_ext_in {A B} (f g : A → list B) (l : list A) :
  (∀ x, x ∈ l → f x = g x) → l ≫= f = l ≫= g.
Proof.
  induction l as [|x l IH]; intros H; [done|].
  rewrite !bind_cons, H by left. f_equal. apply IH. intros y Hy. apply H. by right.
Qed.

Lemma bind_fmap {A B C} (f : A → B) (g : B → list C) (l : list A) :
  (f <$> l) ≫= g = l ≫= (g ∘ f).
Proof. induction l as [|x l IH]; [done|]. by rewrite fmap_cons, !bind_cons, IH. Qed.

Lemma allocations_alone inp course :
  allocations (alone inp course) =
  entry course <$>
    fill (default_mode (arrangement_mode inp)) (seat_margin inp)
      (room_order (room_details inp))
      (student_count (course_enrollment (student_records inp)) course).
Proof.
  unfold allocations. rewrite main_returns, seating_plan_allocations.
  simpl. unfold session_plan, course_student_counts, sorted_courses. simpl.
  by rewrite !app_nil_r.
Qed.

(** C1, as the code has it: a room has no remaining capacity that one
    allocation would leave to the next.  [main] returns a plan whose
    course, room and count columns are, session by session and course by
    course in ranking order, the columns that the course gets when it is
    the only course of a schedule of one session: every pass is offered
    every room at what [compute_max_capacity] gives for its raw
    capacity, and what a single row leaves of that capacity is never
    negative. *)
Theorem every_pass_sees_full_rooms (inp : Input) :
  ∃ plan, main inp = Returns plan ∧
    alloc_of <$> plan =
    held_sessions (schedule_details inp) ≫= (λ sess,
      (sorted_courses
         (course_student_counts (course_enrollment (student_records inp)) sess.2)).*1
      ≫= (λ course, allocations (alone inp course))) ∧
    Forall (λ a, ∃ r u,
              r ∈ room_details inp ∧ Room_ a = Room_No r ∧
              compute_max_capacity (Exam_Capacity r)
                (default_mode (arrangement_mode inp)) (seat_margin inp)
                = Returns (PyInt u) ∧
              0 <= u - Allocated_Students a <= u) plan.
Proof.
  exists (seating_plan inp). split; [apply main_returns|]. split.
  - rewrite seating_plan_allocations. apply bind_ext_in. intros sess _.
    rewrite bind_fmap. unfold session_plan. apply bind_ext_in.
    intros [c n] Hcn. simpl. rewrite allocations_alone.
    by apply sorted_courses_spec in Hcn as [_ ->].
  - apply Forall_forall. intros a Ha.
    apply seating_plan_row in Ha as (r & rem & Hr & Hroom & Hrem & Hmin).
    pose proof (usable_nonneg (default_mode (arrangement_mode inp))
                  (seat_margin inp) (Exam_Capacity r)) as Hu.
    exists r, (usable (default_mode (arrangement_mode inp)) (seat_margin inp)
                 (Exam_Capacity r)).
    split; [by apply room_order_in_catalog|]. split; [done|].
    split; [apply compute_max_capacity_usable, default_mode_recognised|lia].
Qed.

(** C1 as stated fails: in the two-course scenario the room of computed
    capacity 40 receives 45 students, which would leave it -5 seats. *)
Lemma remaining_capacity_negative :
  ¬ remaining_capacity_nonneg scenario_two_courses.
Proof.
  intros H.
  specialize (H _ (mkRoom (CInt 9) 101 40) 40 eq_refl ltac:(left) eq_refl).
  vm_compute in H. by apply H.
Qed.

(** ** The two-course scenario *)

(** C2, as the code has it: with two courses of 5 and 50 students listed
    in one session, one Block 9 room of capacity 40, dense mode and margin
    0, the course of 50 comes first and gets 40 seats of the room, and the
    course of 5 then gets its 5 seats in the same room, out of the room's
    full capacity. *)
Theorem two_courses_one_room (inp : Input) (small big : string) (no d : Z) :
  small ≠ big →
  student_count (course_enrollment (student_records inp)) small = 5 →
  student_count (course_enrollment (student_records inp)) big = 50 →
  arrangement_mode inp = "dense" → seat_margin inp = 0 →
  room_details inp = [mkRoom (CInt 9) no 40] →
  schedule_details inp = [mkSchedule d (Some [small; big]) None] →
  ∃ plan, main inp = Returns plan ∧
    alloc_of <$> plan = [mkAlloc big no 40; mkAlloc small no 5].
Proof.
  intros Hne Hsmall Hbig Hmode Hmargin Hrooms Hsched.
  exists (seating_plan inp). split; [apply main_returns|].
  rewrite seating_plan_allocations, Hmode, Hmargin, Hrooms, Hsched.
  simpl. unfold course_student_counts. simpl.
  rewrite decide_False by done. rewrite Hsmall, Hbig. reflexivity.
Qed.

Lemma two_courses_one_room_witness :
  "SMALL" ≠ "BIG" ∧
  student_count (course_enrollment (student_records scenario_two_courses)) "SMALL" = 5 ∧
  student_count (course_enrollment (student_records scenario_two_courses)) "BIG" = 50 ∧
  ∃ plan, main scenario_two_courses = Returns plan ∧
    alloc_of <$> plan = [mkAlloc "BIG" 101 40; mkAlloc "SMALL" 101 5].
Proof.
  split; [discriminate|]. split; [by vm_compute|]. split; [by vm_compute|].
  apply (two_courses_one_room scenario_two_courses "SMALL" "BIG" 101 1);
    [discriminate | by vm_compute ..].
Defined.

(** C2 as stated fails: the course of 5 gets 5 seats although the course
    of 50 has taken all 40. *)
Lemma small_course_not_from_leftover :
  ¬ small_course_gets_leftover scenario_two_courses.
Proof.
  intros H. specialize (H _ eq_refl). vm_compute in H. by apply H.
Qed.


(** * Further properties of the code *)

(** ** Joining and splitting *)

Lemma split_cell_nonempty s : split_cell s ≠ [].
Proof.
  destruct s as [|c [|d s]]; simpl; [done..|].
  case_decide; [done|]. unfold push_char. by destruct (match s with "" => _ | _ => _ end).
Qed.

Lemma push_char_singleton c l z :
  l ≠ [] → push_char c l = [String c z] → l = [z].
Proof. destruct l as [|f rest]; simpl; [done|]. by intros _ [= -> ->]. Qed.

Lemma concat_push_char c l :
  l ≠ [] → String.concat "; " (push_char c l) = String c (String.concat "; " l).
Proof. destruct l as [|f [|g rest]]; done. Qed.

Lemma split_cell_cons2 c d s :
  split_cell (String c (String d s)) =
  if decide (String c (String d "") = "; ") then "" :: split_cell s
  else push_char c (split_cell (String d s)).
Proof. done. Qed.

Lemma length_push_char c l : l ≠ [] → length (push_char c l) = length l.
Proof. by destruct l. Qed.

Lemma split_cell_separator_step (a b : string) :
  (2 ≤ length (split_cell (a +:+ "; " +:+ b)))%nat ∧
  ∀ c, (2 ≤ length (split_cell (String c a +:+ "; " +:+ b)))%nat.
Proof.
  induction a as [|d a [IH1 IH2]].
  - assert (2 ≤ length (split_cell ("; " +:+ b)))%nat as Hb.
    { change ("; " +:+ b) with (String ";"%char (String " "%char b)).
      rewrite split_cell_cons2, decide_True by done.
      pose proof (split_cell_nonempty b).
      destruct (split_cell b); simpl; [done|lia]. }
    split; [exact Hb|].
    intros c. change (String c "" +:+ "; " +:+ b)
      with (String c (String ";"%char (String " "%char b))).
    rewrite split_cell_cons2. case_decide as Hsep; [done|].
    by rewrite length_push_char by apply split_cell_nonempty.
  - split; [apply IH2|]. intros c.
    change (String c (String d a) +:+ "; " +:+ b)
      with (String c (String d (a +:+ "; " +:+ b))).
    rewrite split_cell_cons2. case_decide.
    + simpl. lia.
    + rewrite length_push_char by apply split_cell_nonempty. apply IH2.
Qed.

Lemma has_separator_tail c s : has_separator s → has_separator (String c s).
Proof. intros (a & b & ->). by exists (String c a), b. Qed.

Lemma split_cell_whole_step s :
  (¬ has_separator s → split_cell s = [s]) ∧
  ∀ c, ¬ has_separator (String c s) → split_cell (String c s) = [String c s].
Proof.
  induction s as [|d s [IH1 IH2]].
  - by split.
  - split; [apply IH2|]. intros c Hc. rewrite split_cell_cons2. case_decide as Hsep.
    + destruct Hc. injection Hsep as -> ->. by exists "", s.
    + rewrite IH2; [done|]. intros H. by apply Hc, has_separator_tail.
Qed.

(** A text is read back as one field exactly when it does not hold the
    separator. *)
Lemma split_cell_whole s : split_cell s = [s] ↔ ¬ has_separator s.
Proof.
  split.
  - intros Hs (a & b & ->).
    pose proof (proj1 (split_cell_separator_step a b)) as Hlen.
    rewrite Hs in Hlen. simpl in Hlen. lia.
  - apply split_cell_whole_step.
Qed.

Lemma split_cell_field_step (x y : string) :
  (split_cell x = [x] → split_cell (x +:+ "; " +:+ y) = x :: split_cell y) ∧
  ∀ c, split_cell (String c x) = [String c x] →
       split_cell (String c x +:+ "; " +:+ y) = String c x :: split_cell y.
Proof.
  induction x as [|d x [IH1 IH2]].
  - split; [done|]. intros c _.
    change (String c "" +:+ "; " +:+ y)
      with (String c (String ";"%char (String " "%char y))).
    rewrite split_cell_cons2. case_decide as Hsep; [done|]. done.
  - split; [apply IH2|]. intros c.
    change (String c (String d x) +:+ "; " +:+ y)
      with (String c (String d (x +:+ "; " +:+ y))).
    rewrite !split_cell_cons2. case_decide as Hsep; [done|].
    intros Hx. apply push_char_singleton in Hx; [|apply split_cell_nonempty].
    change (String d (x +:+ "; " +:+ y)) with (String d x +:+ "; " +:+ y).
    by rewrite IH2.
Qed.

Lemma split_join_fields (l : list string) :
  l ≠ [] → Forall (λ x, ¬ has_separator x) l →
  split_cell (join_students l) = l.
Proof.
  unfold join_students. induction l as [|x [|y l] IH]; intros Hne Hall; [done| |].
  - simpl. apply split_cell_whole. by apply Forall_cons in Hall as [? _].
  - apply Forall_cons in Hall as [Hx Hall].
    change (String.concat "; " (x :: y :: l))
      with (x +:+ "; " +:+ String.concat "; " (y :: l)).
    rewrite (proj1 (split_cell_field_step x _)) by by apply split_cell_whole.
    by rewrite IH.
Qed.

(** X1: joining the fields of a split text gives the text back, whatever
    the text. *)
Theorem join_split_cell (s : string) : join_students (split_cell s) = s.
Proof.
  enough (join_students (split_cell s) = s ∧
          ∀ c, join_students (split_cell (String c s)) = String c s) by tauto.
  unfold join_students. induction s as [|d s [IH1 IH2]].
  - by split.
  - split; [apply IH2|]. intros c. rewrite split_cell_cons2. case_decide as Hsep.
    + injection Hsep as -> ->.
      pose proof (split_cell_nonempty s).
      destruct (split_cell s) as [|f rest] eqn:Hs; [done|].
      change (String.concat "; " ("" :: f :: rest))
        with ("; " +:+ String.concat "; " (f :: rest)).
      by rewrite IH1.
    + rewrite concat_push_char by apply split_cell_nonempty. by rewrite IH2.
Qed.

(** X2: a cell or a text is read as a single field exactly when it does
    not hold a semicolon followed by a space; codes set apart by a
    semicolon alone, or by a comma, stay one field. *)
Theorem cell_without_separator (s : string) :
  split_cell s = [s] ↔ ¬ has_separator s.
Proof.
  split.
  - intros Hs (a & b & ->).
    pose proof (proj1 (split_cell_separator_step a b)) as Hlen.
    rewrite Hs in Hlen. simpl in Hlen. lia.
  - intros Hs. by apply (proj1 (split_cell_whole_step s)).
Qed.

(** X3: a list of texts that is not empty and whose texts do not hold the
    separator is read back from its joined cell as it was; for such a row
    of the plan the attendance table lists the row's students in order,
    each with an empty signature, followed by five blank lines. *)
Theorem split_join_students (a : Assignment) (mapping : gmap string string) :
  Students a ≠ [] → Forall (λ roll, ¬ has_separator roll) (Students a) →
  split_cell (join_students (Students a)) = Students a ∧
  line_Roll <$> attendance_of_row a mapping = Students a ++ replicate 5 "" ∧
  Forall (λ l, line_Signature l = "") (attendance_of_row a mapping).
Proof.
  intros Hne Hall. pose proof (split_join_fields _ Hne Hall) as Hsplit.
  split; [done|]. unfold attendance_of_row, attendance_details. rewrite Hsplit.
  split.
  - rewrite fmap_app, <-list_fmap_compose, fmap_replicate. simpl. f_equal.
    by apply list_fmap_id.
  - apply Forall_app. split.
    + apply Forall_fmap, Forall_forall. done.
    + by apply Forall_replicate.
Qed.

Lemma split_join_students_witness :
  Students row_two_students ≠ [] ∧
  Forall (λ roll, ¬ has_separator roll) (Students row_two_students) ∧
  line_Roll <$> attendance_of_row row_two_students ∅ =
  Students row_two_students ++ replicate 5 "".
Proof.
  assert (Forall (λ roll, ¬ has_separator roll) (Students row_two_students)) as H.
  { repeat (apply Forall_cons; split; [apply split_cell_whole; reflexivity|]).
    constructor. }
  split; [done|]. split; [exact H|].
  apply (split_join_students row_two_students ∅); [done|exact H].
Defined.

(** X4: a row of the plan that names no student still gets a table with
    one line for an empty roll, whose name is looked up like any other
    (Unknown Name unless the names sheet has an empty roll), before the
    five blank lines. *)
Theorem attendance_of_empty_row (a : Assignment) (mapping : gmap string string) :
  Students a = [] →
  split_cell (join_students (Students a)) = [""] ∧
  attendance_of_row a mapping =
    mkLine "" (default "Unknown Name" (mapping !! "")) ""
    :: replicate 5 (mkLine "" "" "").
Proof.
  intros Hs. unfold attendance_of_row. rewrite Hs. done.
Qed.

Lemma attendance_of_empty_row_witness :
  Students row_no_students = [] ∧
  attendance_of_row row_no_students ∅ =
    mkLine "" "Unknown Name" "" :: replicate 5 (mkLine "" "" "").
Proof.
  split; [reflexivity|].
  pose proof (attendance_of_empty_row row_no_students ∅ eq_refl) as [_ H].
  rewrite lookup_empty in H. exact H.
Defined.

(** ** The names *)

Lemma roll_name_mapping_snoc rows row :
  roll_name_mapping (rows ++ [row]) =
  <[Roll row := Name row]> (roll_name_mapping rows).
Proof. unfold roll_name_mapping. by rewrite foldl_app. Qed.

Lemma roll_name_mapping_lookup rows roll :
  roll_name_mapping rows !! roll =
  Name <$> last (filter (λ row, Roll row = roll) rows).
Proof.
  induction rows as [|row rows IH] using rev_ind; [done|].
  rewrite roll_name_mapping_snoc, filter_app, filter_cons, filter_nil.
  destruct (decide (Roll row = roll)) as [<-|Hne].
  - by rewrite lookup_insert_eq, last_snoc.
  - by rewrite lookup_insert_ne, app_nil_r.
Qed.

(** X5: in the dictionary of names a roll that occurs in several rows of
    the names sheet has the name of the last of them, and the table shows,
    for the roll at each position, that name, or Unknown Name when the
    sheet has no row for the roll. *)
Theorem attendance_names (names : list Name_row) (rolls : list string) :
  (∀ roll, roll_name_mapping names !! roll =
           Name <$> last (filter (λ row, Roll row = roll) names)) ∧
  ∀ i roll, rolls !! i = Some roll ↔
    attendance_details rolls (roll_name_mapping names) !! i =
      Some (mkLine roll
              (default "Unknown Name"
                 (Name <$> last (filter (λ row, Roll row = roll) names))) "") ∧
    (i < length rolls)%nat.
Proof.
  split; [apply roll_name_mapping_lookup|].
  intros i roll. unfold attendance_details. split.
  - intros Hi. pose proof (lookup_lt_Some _ _ _ Hi) as Hlt. split; [|done].
    rewrite lookup_app_l by by rewrite length_fmap.
    rewrite list_lookup_fmap, Hi. simpl. by rewrite roll_name_mapping_lookup.
  - intros [Hline Hlt].
    rewrite lookup_app_l in Hline by by rewrite length_fmap.
    rewrite list_lookup_fmap in Hline.
    destruct (rolls !! i) as [r|]; [|done]. simpl in Hline.
    by injection Hline as ->.
Qed.

Lemma foldr_max_bound (l : list Z) x : x ∈ l → x <= foldr Z.max 0 l.
Proof.
  induction l as [|y l IH]; [by intros ?%elem_of_nil|].
  rewrite elem_of_cons. simpl. intros [->|Hx]; [lia|]. specialize (IH Hx). lia.
Qed.

(** X6: the name column is at least 15 wide and at least two wider than
    every name of the table. *)
Theorem name_column_fits (details : list attendance_line) :
  15 <= name_column_width details ∧
  Forall (λ l, Z.of_nat (String.length (line_Student_Name l)) + 2
               <= name_column_width details) details.
Proof.
  unfold name_column_width. split; [lia|].
  apply Forall_forall. intros l Hl.
  pose proof (foldr_max_bound
    ((λ l, Z.of_nat (String.length (line_Student_Name l))) <$> details)
    (Z.of_nat (String.length (line_Student_Name l)))) as H.
  assert (Z.of_nat (String.length (line_Student_Name l))
          <= foldr Z.max 0
               ((λ l, Z.of_nat (String.length (line_Student_Name l))) <$> details)).
  { apply H, list_elem_of_fmap. by exists l. }
  lia.
Qed.

(** ** More on the capacity of a room *)

(** X7: for a room size and a margin that are not negative, the dense
    capacity lies between 0 and the room size, the sparse capacity between
    1 and the larger of 1 and half the size, and the sparse capacity is at
    most the dense one unless the dense one is 0, where the sparse one is
    still 1. *)
Theorem capacity_within_room (s m : Z) :
  0 <= s → 0 <= m →
  ∃ d sp,
    compute_max_capacity s "dense" m = Returns (PyInt d) ∧
    compute_max_capacity s "sparse" m = Returns (PyInt sp) ∧
    0 <= d <= s ∧ 1 <= sp <= Z.max 1 (s / 2) ∧
    (1 <= d → sp <= d) ∧ (d = 0 → sp = 1).
Proof.
  intros Hs Hm. exists (Z.max 0 (s - m)), (Z.max 1 (s / 2 - m)).
  split; [done|]. split; [done|].
  assert (s / 2 <= s) by (apply Z.div_le_upper_bound; lia).
  repeat split; lia.
Qed.

Lemma capacity_within_room_witness :
  0 <= 0 ∧ 0 <= 3 ∧
  ∃ d sp,
    compute_max_capacity 0 "dense" 3 = Returns (PyInt d) ∧
    compute_max_capacity 0 "sparse" 3 = Returns (PyInt sp) ∧
    0 <= d <= 0 ∧ 1 <= sp <= Z.max 1 (0 / 2) ∧
    (1 <= d → sp <= d) ∧ (d = 0 → sp = 1).
Proof.
  split; [lia|]. split; [lia|]. apply (capacity_within_room 0 3); lia.
Defined.

(** X8: in either recognised mode the capacity does not shrink when the
    room grows or the margin shrinks. *)
Theorem capacity_monotone (mode : string) (s1 s2 m1 m2 : Z) :
  mode = "dense" ∨ mode = "sparse" → s1 <= s2 → m2 <= m1 →
  ∃ u1 u2,
    compute_max_capacity s1 mode m1 = Returns (PyInt u1) ∧
    compute_max_capacity s2 mode m2 = Returns (PyInt u2) ∧
    u1 <= u2.
Proof.
  intros Hmode Hs Hm.
  exists (usable mode m1 s1), (usable mode m2 s2).
  rewrite !compute_max_capacity_usable by done. split; [done|]. split; [done|].
  unfold usable. case_decide; [lia|].
  assert (s1 / 2 <= s2 / 2) by (apply Z.div_le_mono; lia). lia.
Qed.

Lemma capacity_monotone_witness :
  30 <= 41 ∧ 2 <= 4 ∧
  ∃ u1 u2,
    compute_max_capacity 30 "sparse" 4 = Returns (PyInt u1) ∧
    compute_max_capacity 41 "sparse" 2 = Returns (PyInt u2) ∧
    u1 <= u2.
Proof.
  split; [lia|]. split; [lia|].
  apply (capacity_monotone "sparse" 30 41 4 2); [by right | lia | lia].
Defined.

(** ** The answer for the mode *)

Lemma assign_block_idle mode margin course rooms acc rem :
  rem <= 0 →
  assign_block mode margin course rooms (acc, rem) = Returns (acc, rem).
Proof. intros. destruct rooms; simpl; [done|]. by rewrite decide_True. Qed.

Lemma assign_block_unrecognised mode margin course r rooms acc rem :
  mode ≠ "dense" → mode ≠ "sparse" → 0 < rem →
  assign_block mode margin course (r :: rooms) (acc, rem) = Raises "TypeError".
Proof.
  intros Hd Hs Hrem. simpl. rewrite decide_False by lia.
  unfold compute_max_capacity.
  rewrite decide_False by done. rewrite decide_False by done. done.
Qed.

(** X9: with a mode that is neither dense nor sparse the allocation of a
    session raises TypeError, at the comparison of [None] with the count,
    as soon as there is a room to visit and a ranked course with a
    positive count; lines 66-68 are what keeps [main] from this. *)
Theorem unrecognised_mode_raises (mode : string) (margin : Z)
    (b9 lt : list Room) (sorted : list (string * Z)) (plan : list allocation) :
  mode ≠ "dense" → mode ≠ "sparse" → b9 ++ lt ≠ [] →
  Exists (λ item, 0 < item.2) sorted →
  allocation_plan mode margin b9 lt sorted plan = Raises "TypeError".
Proof.
  intros Hd Hs Hrooms Hex. revert plan.
  induction sorted as [|[c n] sorted IH]; intros plan; [by apply Exists_nil in Hex|].
  cbn [allocation_plan]. unfold assigned_rooms. cbn [fst snd].
  destruct (decide (n <= 0)) as [Hn|Hn].
  - rewrite assign_block_idle by done. rewrite bind_Returns.
    rewrite assign_block_idle by done. rewrite !bind_Returns.
    apply IH. apply Exists_cons in Hex as [Hc|?]; [simpl in Hc; lia|done].
  - destruct b9 as [|r b9].
    + destruct lt as [|r lt]; [done|].
      change (assign_block mode margin c [] ([], n)) with (Returns (@nil allocation, n)).
      rewrite bind_Returns, assign_block_unrecognised by (done || lia). done.
    + rewrite assign_block_unrecognised by (done || lia). done.
Qed.

Lemma unrecognised_mode_raises_witness :
  "compact" ≠ "dense" ∧ "compact" ≠ "sparse" ∧
  allocation_plan "compact" 0 [mkRoom (CInt 9) 101 40] [] [("X", 3)] []
  = Raises "TypeError".
Proof.
  split; [discriminate|]. split; [discriminate|].
  apply (unrecognised_mode_raises "compact" 0 [mkRoom (CInt 9) 101 40] []
           [("X", 3)] []); [discriminate | discriminate | discriminate |].
  apply Exists_cons_hd. simpl. lia.
Defined.

(** X10: an answer for the mode that is neither dense nor sparse gives
    exactly the seating plan of the answer dense, and [main] raises
    nothing. *)
Theorem unrecognised_mode_is_dense (inp : Input) :
  arrangement_mode inp ≠ "dense" → arrangement_mode inp ≠ "sparse" →
  main inp = main (with_mode inp "dense") ∧
  ∃ plan, main inp = Returns plan.
Proof.
  intros Hd Hs. split; [|exists (seating_plan inp); apply main_returns].
  unfold main, with_mode. simpl.
  replace (default_mode (arrangement_mode inp)) with "dense"; [done|].
  unfold default_mode. rewrite decide_False; [done|].
  rewrite !elem_of_cons, elem_of_nil. tauto.
Qed.

Lemma unrecognised_mode_is_dense_witness :
  arrangement_mode (with_mode scenario_two_courses "sparce") ≠ "dense" ∧
  arrangement_mode (with_mode scenario_two_courses "sparce") ≠ "sparse" ∧
  main (with_mode scenario_two_courses "sparce")
  = main (with_mode (with_mode scenario_two_courses "sparce") "dense") ∧
  ∃ plan, main (with_mode scenario_two_courses "sparce") = Returns plan.
Proof.
  split; [discriminate|]. split; [discriminate|].
  apply (unrecognised_mode_is_dense (with_mode scenario_two_courses "sparce"));
    discriminate.
Defined.

(** ** What a pass allocates *)

Lemma Forall2_and_r {A B} (P : A → B → Prop) (Q : B → Prop) l k :
  Forall2 P l k → Forall Q k → Forall2 (λ x y, P x y ∧ Q y) l k.
Proof.
  induction 1 as [|x y l k Hxy _ IH]; intros HQ; [constructor|].
  apply Forall_cons in HQ as [Hy HQ]. constructor; [done|]. by apply IH.
Qed.

Lemma passes_spec ce sessions p :
  p ∈ passes ce sessions →
  ∃ cs, (p.1.1, p.1.2, cs) ∈ sessions ∧ p.2.1 ∈ cs ∧
        p.2.2 = student_count ce p.2.1.
Proof.
  unfold passes. intros Hp.
  apply list_elem_of_bind in Hp as ([[d s] cs] & Hp & Hsess).
  apply list_elem_of_fmap in Hp as ([c n] & -> & Hitem). simpl in *.
  apply sorted_courses_spec in Hitem as [Hc ->]. by exists cs.
Qed.

Lemma run_passes_counts inp :
  Forall (λ p, p.2.2 = student_count (course_enrollment (student_records inp)) p.2.1 ∧
               0 <= p.2.2) (run_passes inp).
Proof.
  apply Forall_forall. intros p Hp. apply passes_spec in Hp as (cs & _ & _ & ->).
  split; [done|]. rewrite student_count_roster. lia.
Qed.

Section pass_totals.
Variable mode : string.
Variable margin : Z.

Lemma capacities_nonneg rooms :
  0 <= sum_Z ((λ r, usable mode margin (Exam_Capacity r)) <$> rooms).
Proof.
  induction rooms as [|r rooms IH]; simpl; [done|].
  pose proof (usable_nonneg mode margin (Exam_Capacity r)). unfold fmap in *. lia.
Qed.

Lemma left_after_closed rooms rem :
  0 <= rem →
  left_after mode margin rooms rem =
  Z.max 0 (rem - sum_Z ((λ r, usable mode margin (Exam_Capacity r)) <$> rooms)).
Proof.
  revert rem. induction rooms as [|r rooms IH]; intros rem Hrem; simpl; [lia|].
  pose proof (usable_nonneg mode margin (Exam_Capacity r)) as Hu.
  pose proof (capacities_nonneg rooms) as Hsum. unfold fmap in *.
  case_decide; [lia|]. rewrite IH by lia. lia.
Qed.

Lemma fill_total rooms rem :
  0 <= rem →
  sum_Z ((fill mode margin rooms rem).*2) =
  Z.min rem (sum_Z ((λ r, usable mode margin (Exam_Capacity r)) <$> rooms)).
Proof.
  intros Hrem. rewrite fill_sum, left_after_closed by done.
  pose proof (capacities_nonneg rooms). lia.
Qed.

(** A room is left for the next one only when it is full. *)
Lemma fill_full_before_next rooms rem i r k :
  fill mode margin rooms rem !! i = Some (r, k) →
  is_Some (fill mode margin rooms rem !! S i) →
  k = usable mode margin (Exam_Capacity r).
Proof.
  revert rem i. induction rooms as [|r0 rooms IH]; intros rem i; simpl; [done|].
  case_decide as Hrem; [done|]. destruct i as [|i]; simpl.
  - intros [= <- <-] [x Hx].
    destruct (decide (rem - Z.min (usable mode margin (Exam_Capacity r0)) rem <= 0))
      as [Hle|Hgt]; [|lia].
    by rewrite fill_nonpos in Hx.
  - apply IH.
Qed.
End pass_totals.

Lemma pass_rows_fill_lookup mode margin b9 lt seg p i a :
  pass_rows mode margin b9 lt seg p → seg !! i = Some a →
  ∃ r, fill mode margin (b9 ++ lt) p.2.2 !! i = Some (r, Allocated_Students a) ∧
       Room_ a = Room_No r.
Proof.
  intros [Hmap _] Ha.
  pose proof (f_equal (λ l, l !! i) Hmap) as Hi. simpl in Hi.
  rewrite !list_lookup_fmap, Ha in Hi. simpl in Hi.
  destruct (fill mode margin (b9 ++ lt) p.2.2 !! i) as [[r k]|] eqn:Hfill; [|done].
  simpl in Hi. injection Hi as _ Hr Hk. exists r. by rewrite Hk.
Qed.

(** X11: a pass allocates, over all its rows, the smaller of the course's
    count and the usable seats of all visited rooms together: a course
    that fits is allocated in full, and of a course that does not fit the
    surplus is left out without any error. *)
Theorem pass_allocates_min_of_count_and_capacity (inp : Input) :
  ∃ plan segs, main inp = Returns plan ∧ plan = mjoin segs ∧
    Forall2 (λ seg p,
               sum_Z (Allocated_Students <$> seg) =
                 Z.min p.2.2 (total_capacity inp) ∧
               p.2.2 = student_count (course_enrollment (student_records inp)) p.2.1)
            segs (run_passes inp).
Proof.
  destruct (seating_plan_segments inp) as (segs & Heq & Hsegs).
  exists (seating_plan inp), segs.
  split; [apply main_returns|]. split; [done|].
  eapply Forall2_impl; [exact (Forall2_and_r _ _ _ _ Hsegs (run_passes_counts inp))|].
  intros seg p [Hp [Hcount Hpos]]. split; [|done].
  destruct (pass_rows_columns _ _ _ _ _ _ Hp) as (_ & _ & ->).
  by apply fill_total.
Qed.

(** X12: within a pass a course moves on to the next room only after the
    room before is full: every row of a pass but the last seats exactly
    what [compute_max_capacity] gives for its room. *)
Theorem rooms_filled_before_next (inp : Input) :
  ∃ plan segs, main inp = Returns plan ∧ plan = mjoin segs ∧
    Forall2 (λ seg p, ∀ i a,
               seg !! i = Some a → is_Some (seg !! S i) →
               ∃ r, room_order (room_details inp) !! i = Some r ∧
                    Room_ a = Room_No r ∧
                    compute_max_capacity (Exam_Capacity r)
                      (default_mode (arrangement_mode inp)) (seat_margin inp)
                    = Returns (PyInt (Allocated_Students a)))
            segs (run_passes inp).
Proof.
  destruct (seating_plan_segments inp) as (segs & Heq & Hsegs).
  exists (seating_plan inp), segs.
  split; [apply main_returns|]. split; [done|].
  eapply Forall2_impl; [exact Hsegs|]. intros seg p Hp i a Ha [b Hb].
  destruct (pass_rows_fill_lookup _ _ _ _ _ _ _ _ Hp Ha) as (r & Hfill & Hroom).
  destruct (pass_rows_fill_lookup _ _ _ _ _ _ _ _ Hp Hb) as (r' & Hfill' & _).
  pose proof (fill_full_before_next _ _ _ _ _ _ _ Hfill (mk_is_Some _ _ Hfill')) as Hk.
  apply fill_lookup in Hfill as (Hr & _ & _).
  exists r. split; [done|]. split; [done|].
  rewrite compute_max_capacity_usable by apply default_mode_recognised.
  by rewrite Hk.
Qed.

(** ** Which courses and rooms get rows *)

Lemma seating_plan_pass inp a :
  a ∈ seating_plan inp →
  ∃ p, p ∈ run_passes inp ∧ a_Date a = p.1.1 ∧ a_Session a = p.1.2 ∧
       Course_Code a = p.2.1 ∧ 0 < p.2.2.
Proof.
  intros Ha. destruct (seating_plan_segments inp) as (segs & Heq & Hsegs).
  rewrite Heq in Ha. apply list_elem_of_join in Ha as (seg & Ha & Hseg).
  apply list_elem_of_lookup in Hseg as [j Hj].
  destruct (Forall2_lookup_l _ _ _ _ _ Hsegs Hj) as (p & Hpj & Hp).
  apply list_elem_of_lookup in Ha as [i Hi].
  destruct (pass_rows_lookup _ _ _ _ _ _ _ _ Hp Hi)
    as (r & _ & Hd & Hs & Hc & _ & _ & _).
  destruct (pass_rows_fill_lookup _ _ _ _ _ _ _ _ Hp Hi) as (r' & Hfill & _).
  exists p. split; [by eapply list_elem_of_lookup_2|].
  repeat split; try done.
  destruct (decide (p.2.2 <= 0)) as [Hle|]; [|lia].
  by rewrite fill_nonpos in Hfill.
Qed.

(** X13: every row of the plan belongs to a held session that lists the
    row's course, and to a course that the enrolment sheet has: a blank
    cell, a course that is not listed and a course without students get no
    row, and none of this is an error. *)
Theorem rows_only_for_listed_enrolled_courses (inp : Input) :
  ∃ plan, main inp = Returns plan ∧
    Forall (λ a,
              (∃ cs, (a_Date a, a_Session a, cs) ∈
                       held_sessions (schedule_details inp) ∧
                     Course_Code a ∈ cs) ∧
              0 < student_count (course_enrollment (student_records inp))
                    (Course_Code a) ∧
              is_Some (course_to_students (student_records inp) !! Course_Code a))
           plan.
Proof.
  exists (seating_plan inp). split; [apply main_returns|].
  apply Forall_forall. intros a Ha.
  apply seating_plan_pass in Ha as (p & Hp & -> & -> & -> & Hpos).
  apply passes_spec in Hp as (cs & Hsess & Hc & Hcount).
  split; [by exists cs|]. rewrite <-Hcount. split; [done|].
  apply student_count_pos_enrolled. by rewrite <-Hcount.
Qed.

Lemma room_order_blocks rooms r :
  r ∈ room_order rooms → Block r = CInt 9 ∨ Block r = CStr "LT".
Proof.
  unfold room_order. rewrite elem_of_app.
  rewrite block_9_rooms_perm, lt_block_rooms_perm, !list_elem_of_filter. tauto.
Qed.

(** X14: every row of the plan is in a room of the rooms sheet whose block
    is 9 or LT; rooms of any other block are never used. *)
Theorem rows_only_in_block_9_or_lt (inp : Input) :
  ∃ plan, main inp = Returns plan ∧
    Forall (λ a, ∃ r, r ∈ room_details inp ∧ Room_ a = Room_No r ∧
                      (Block r = CInt 9 ∨ Block r = CStr "LT")) plan.
Proof.
  exists (seating_plan inp). split; [apply main_returns|].
  apply Forall_forall. intros a Ha.
  apply seating_plan_row in Ha as (r & rem & Hr & Hroom & _).
  exists r. split; [by apply room_order_in_catalog|]. split; [done|].
  by eapply room_order_blocks.
Qed.

Lemma bind_all_nil {A B} (f : A → list B) (l : list A) :
  (∀ x, x ∈ l → f x = []) → l ≫= f = [].
Proof.
  induction l as [|x l IH]; intros H; [done|].
  rewrite bind_cons, H by left. apply IH. intros y Hy. apply H. by right.
Qed.

(** X15: [main] returns the empty plan, without any error, when the
    enrolment sheet is empty, when every session cell is blank, or when
    the rooms sheet has no room of block 9 or LT. *)
Theorem empty_plan (inp : Input) :
  student_records inp = [] ∨
  held_sessions (schedule_details inp) = [] ∨
  room_order (room_details inp) = [] →
  main inp = Returns [].
Proof.
  intros H. rewrite main_returns. f_equal.
  apply (fmap_nil_inv alloc_of). rewrite seating_plan_allocations.
  apply bind_all_nil. intros sess Hsess. unfold session_plan.
  apply bind_all_nil. intros [c n] Hitem. simpl.
  destruct H as [H | [H | H]].
  - apply sorted_courses_spec in Hitem as [_ ->]. rewrite H.
    by rewrite fill_nonpos.
  - rewrite H in Hsess. by apply elem_of_nil in Hsess.
  - rewrite H. done.
Qed.

Lemma empty_plan_witness :
  room_order (room_details scenario_other_block) = [] ∧
  main scenario_other_block = Returns [].
Proof.
  split; [reflexivity|].
  apply (empty_plan scenario_other_block). right. right. reflexivity.
Defined.

(** ** The ranking of a session's courses *)

Section dictionary.
Variable f : string → Z.

Lemma dict_set_present d k :
  (∀ c n, (c, n) ∈ d → n = f c) → k ∈ d.*1 → dict_set d k (f k) = d.
Proof.
  induction d as [|[k' v'] d IH]; simpl; intros Hd Hk; [by apply elem_of_nil in Hk|].
  case_decide as Hkk.
  - subst k'. by rewrite <-(Hd k v') by left.
  - f_equal. apply IH; [intros ???; apply Hd; by right|].
    apply elem_of_cons in Hk as [?|?]; [by subst|done].
Qed.

Lemma dict_set_absent d k v : k ∉ d.*1 → dict_set d k v = d ++ [(k, v)].
Proof.
  induction d as [|[k' v'] d IH]; simpl; intros Hk; [done|].
  apply not_elem_of_cons in Hk as [Hne Hk].
  rewrite decide_False by done. by rewrite IH.
Qed.

Lemma filter_all {A} (P : A → Prop) `{!∀ x, Decision (P x)} (l : list A) :
  (∀ x, x ∈ l → P x) → filter P l = l.
Proof.
  induction l as [|x l IH]; intros Hall; [done|].
  rewrite filter_cons, decide_True by (apply Hall; left).
  f_equal. apply IH. intros y Hy. apply Hall. by right.
Qed.

Lemma counts_in_order d0 cs :
  (∀ c n, (c, n) ∈ d0 → n = f c) →
  foldl (λ d course, dict_set d course (f course)) d0 cs =
  d0 ++ ((λ c, (c, f c)) <$> filter (λ y, y ∉ d0.*1) (first_occurrences cs)).
Proof.
  revert d0. induction cs as [|x cs IH]; intros d0 Hd0; simpl.
  - by rewrite app_nil_r.
  - rewrite filter_cons. destruct (decide (x ∈ d0.*1)) as [Hin|Hnin].
    + rewrite dict_set_present by done. rewrite IH by done.
      rewrite decide_False by (intros Hx; by apply Hx).
      do 2 f_equal. rewrite list_filter_filter.
      apply list_filter_iff. intros y. split; [|tauto].
      intros Hy. split; [done|]. intros ->. done.
    + rewrite dict_set_absent by done. rewrite decide_True by done.
      rewrite IH.
      2:{ intros c n [?|Hc]%elem_of_app; [by apply Hd0|].
          apply list_elem_of_singleton in Hc. by injection Hc as -> ->. }
      rewrite <-app_assoc. simpl. do 3 f_equal.
      rewrite list_filter_filter. apply list_filter_iff. intros y.
      rewrite fmap_app, not_elem_of_app. simpl.
      rewrite not_elem_of_cons. split; [intros (? & ? & _)|intros []]; repeat split;
        try done. apply not_elem_of_nil.
Qed.
End dictionary.

(** X16: the dictionary of counts holds the courses of the cell in the
    order of their first occurrence, each once, with its count from the
    enrolment sheet; a code repeated in the cell is counted once. *)
Theorem course_student_counts_first_occurrences
    (ce : gmap string Z) (session_courses : list string) :
  course_student_counts ce session_courses =
  (λ course, (course, student_count ce course)) <$> first_occurrences session_courses.
Proof.
  unfold course_student_counts.
  rewrite (counts_in_order (student_count ce) [] session_courses).
  - simpl. f_equal. apply filter_all. intros ? _. apply not_elem_of_nil.
  - intros c n H. by apply elem_of_nil in H.
Qed.

Lemma filter_insert_by_desc (x : string * Z) (l : list (string * Z)) (n : Z) :
  filter (λ y : string * Z, y.2 = n)
         (insert_by (λ x y : string * Z, bool_decide (y.2 <= x.2)) x l) =
  filter (λ y : string * Z, y.2 = n) (x :: l).
Proof.
  induction l as [|y l IH]; simpl; [done|].
  destruct (bool_decide (y.2 <= x.2)) eqn:Hle; [done|].
  apply bool_decide_eq_false in Hle.
  rewrite (filter_cons _ y), IH, !(filter_cons _ x), (filter_cons _ y).
  destruct (decide (y.2 = n)), (decide (x.2 = n)); try done. lia.
Qed.

(** X17: the ranking of a session is a permutation of the dictionary items,
    in descending order of count, and it is stable: the courses of one
    count stay in dictionary order. *)
Theorem sorted_courses_ranking (counts : list (string * Z)) :
  sorted_courses counts ≡ₚ counts ∧
  StronglySorted (λ x y : string * Z, y.2 <= x.2) (sorted_courses counts) ∧
  ∀ n, filter (λ y : string * Z, y.2 = n) (sorted_courses counts) =
       filter (λ y : string * Z, y.2 = n) counts.
Proof.
  unfold sorted_courses. split; [apply sort_by_perm|]. split.
  - eapply StronglySorted_weaken; [|apply sort_by_sorted].
    + intros x y H. by apply bool_decide_eq_true in H.
    + intros x y H. apply bool_decide_eq_false in H. apply bool_decide_eq_true. lia.
    + intros x y z H1 H2. apply bool_decide_eq_true in H1, H2.
      apply bool_decide_eq_true. lia.
  - intros n. induction counts as [|x counts IH]; [done|].
    simpl. rewrite filter_insert_by_desc, !(filter_cons _ x), IH. done.
Qed.

(** ** Who is seated *)

Lemma fill_counts_nonneg mode margin rooms rem :
  Forall (λ p : Room * Z, 0 <= p.2) (fill mode margin rooms rem).
Proof.
  revert rem. induction rooms as [|r rooms IH]; intros rem; simpl; [constructor|].
  case_decide; [constructor|]. constructor; [|apply IH]. simpl.
  pose proof (usable_nonneg mode margin (Exam_Capacity r)). lia.
Qed.

Lemma session_plan_nonneg mode margin rooms sorted :
  Forall (λ a, 0 <= allocated a) (session_plan mode margin rooms sorted).
Proof.
  apply Forall_forall. intros a Ha. unfold session_plan in Ha.
  apply list_elem_of_bind in Ha as ([c n] & Ha & _). simpl in Ha.
  apply list_elem_of_fmap in Ha as ([r k] & -> & Hrk). simpl.
  by apply (proj1 (Forall_forall _ _) (fill_counts_nonneg mode margin rooms n)) in Hrk.
Qed.

Lemma length_slice_to {A} (k : Z) (l : list A) :
  0 <= k → Z.of_nat (length (slice_to k l)) = Z.min k (Z.of_nat (length l)).
Proof.
  intros Hk. unfold slice_to. rewrite decide_True by done.
  rewrite length_take. lia.
Qed.

Lemma total_allocated_app course p q :
  total_allocated course (p ++ q) =
  total_allocated course p + total_allocated course q.
Proof. unfold total_allocated. by rewrite rows_of_app, fmap_app, sum_Z_app. Qed.

Lemma total_allocated_single course row :
  total_allocated course [row] =
  if decide (Course_Code row = course) then Allocated_Students row else 0.
Proof.
  unfold total_allocated, rows_of. rewrite filter_cons, filter_nil.
  case_decide; simpl; lia.
Qed.

Lemma seated_students_single course row :
  seated_students course [row] =
  if decide (Course_Code row = course) then Students row else [].
Proof.
  unfold seated_students, rows_of. rewrite filter_cons, filter_nil.
  case_decide; simpl; [apply app_nil_r|done].
Qed.

Lemma update_seating_plan_within_counts d s plan st :
  Forall (λ a, 0 <= allocated a) plan →
  rows_within_counts st → rows_within_counts (update_seating_plan d s plan st).
Proof.
  unfold rows_within_counts.
  revert st. induction plan as [|a plan IH]; intros [c2s seating] Hplan Hst;
    simpl; [done|].
  apply Forall_cons in Hplan as [Ha Hplan].
  destruct (c2s !! alloc_course_code a) as [ros|]; apply IH; try done.
  simpl in *. apply Forall_app. split; [done|]. constructor; [|constructor].
  simpl. rewrite length_slice_to by done. lia.
Qed.

Lemma update_seating_plan_up_to_roster d s plan st course :
  Forall (λ a, 0 <= allocated a) plan →
  seated_up_to_roster course st →
  seated_up_to_roster course (update_seating_plan d s plan st).
Proof.
  revert st. induction plan as [|a plan IH]; intros [c2s seating] Hplan Hst;
    simpl; [done|].
  apply Forall_cons in Hplan as [Ha Hplan].
  destruct (c2s !! alloc_course_code a) as [ros|] eqn:Hros; apply IH; try done.
  destruct Hst as [Htot Hlen]. unfold seated_up_to_roster, accounted in *.
  simpl in *.
  rewrite total_allocated_app, seated_students_app.
  rewrite total_allocated_single, seated_students_single. simpl.
  destruct (decide (alloc_course_code a = course)) as [Heq|Hne].
  - rewrite Heq, lookup_insert_eq. rewrite <-Heq, Hros in Hlen. rewrite Heq in Hlen.
    simpl in *. rewrite <-app_assoc, slice_to_from.
    rewrite length_app in Hlen. rewrite !length_app.
    pose proof (length_slice_to (allocated a) ros Ha). lia.
  - rewrite lookup_insert_ne by done. rewrite app_nil_r.
    split; [lia|]. rewrite Z.add_0_r. done.
Qed.

Section seated.
Variable mode : string.
Variable margin : Z.
Variable ce : gmap string Z.
Variables b9 lt : list Room.

Lemma fold_sessions_within_counts sessions st :
  rows_within_counts st →
  rows_within_counts (foldl (seat_session mode margin ce b9 lt) st sessions).
Proof.
  revert st. induction sessions as [|sess sessions IH]; intros st Hst; [done|].
  cbn [foldl]. apply IH. unfold seat_session.
  apply update_seating_plan_within_counts; [apply session_plan_nonneg|done].
Qed.

Lemma fold_sessions_up_to_roster sessions st course :
  seated_up_to_roster course st →
  seated_up_to_roster course (foldl (seat_session mode margin ce b9 lt) st sessions).
Proof.
  revert st. induction sessions as [|sess sessions IH]; intros st Hst; [done|].
  cbn [foldl]. apply IH. unfold seat_session.
  apply update_seating_plan_up_to_roster; [apply session_plan_nonneg|done].
Qed.
End seated.

(** X18: no row names more students than its Allocated_Students says; a
    row with count 0 names none. *)
Theorem rows_name_at_most_allocated (inp : Input) :
  ∃ plan, main inp = Returns plan ∧
    Forall (λ a, Z.of_nat (length (Students a)) <= Allocated_Students a ∧
                 (Allocated_Students a = 0 → Students a = [])) plan.
Proof.
  exists (seating_plan inp). split; [apply main_returns|].
  assert (rows_within_counts (course_to_students (student_records inp), [])) as H0
    by constructor.
  eapply (fold_sessions_within_counts _ _ _ _ _ _ _) in H0.
  eapply Forall_impl; [exact H0|]. intros a Ha. simpl in Ha. split; [done|].
  intros Hz. rewrite Hz in Ha. destruct (Students a); [done|]. simpl in Ha. lia.
Qed.

Lemma seating_plan_seated_students inp course :
  seated_students course (seating_plan inp) =
  take (Z.to_nat
          (Z.min (total_allocated course (seating_plan inp))
             (Z.of_nat (length
                (default [] (course_to_students (student_records inp) !! course))))))
       (default [] (course_to_students (student_records inp) !! course)).
Proof.
  unfold seating_plan.
  set (init := (course_to_students (student_records inp), @nil Assignment)).
  assert (seated_up_to_roster course init) as H0.
  { split; [done|]. unfold accounted, total_allocated, seated_students. simpl. lia. }
  pose proof (fold_sessions_up_to_roster
                (default_mode (arrangement_mode inp)) (seat_margin inp)
                (course_enrollment (student_records inp))
                (block_9_rooms (room_details inp)) (lt_block_rooms (room_details inp))
                (held_sessions (schedule_details inp)) init course H0) as [_ Hlen].
  pose proof (fold_sessions_accounted
                (default_mode (arrangement_mode inp)) (seat_margin inp)
                (course_enrollment (student_records inp))
                (block_9_rooms (room_details inp)) (lt_block_rooms (room_details inp))
                (held_sessions (schedule_details inp)) init course) as Hacc.
  rewrite Hacc in Hlen. unfold accounted at 1 in Hlen. simpl in Hlen.
  rewrite <-Hlen, Nat2Z.id.
  unfold accounted in Hacc. simpl in Hacc. rewrite <-Hacc.
  by rewrite take_app_length.
Qed.

(** X19: the students that the plan names for a course are the first ones
    of its original roster, as many as the course's rows allocate in all,
    and the whole roster once the rows allocate more than that. *)
Theorem seated_students_are_first_allocated (inp : Input) :
  ∃ plan, main inp = Returns plan ∧
    ∀ course,
      seated_students course plan =
      take (Z.to_nat
              (Z.min (total_allocated course plan)
                 (Z.of_nat (length
                    (default [] (course_to_students (student_records inp) !! course))))))
           (default [] (course_to_students (student_records inp) !! course)).
Proof.
  exists (seating_plan inp). split; [apply main_returns|]. intros course.
  apply seating_plan_seated_students.
Qed.

(** ** How much a course is allocated in all *)

Lemma entries_total_session_exact mode margin course f rooms items :
  NoDup items.*1 → (∀ c n, (c, n) ∈ items → n = f c) →
  entries_total course (session_plan mode margin rooms items) =
  if decide (course ∈ items.*1)
  then sum_Z ((fill mode margin rooms (f course)).*2) else 0.
Proof.
  intros Hnd Hf. unfold session_plan.
  induction items as [|[c n] items IH].
  - done.
  - rewrite bind_cons, entries_total_app, entries_total_pass. simpl.
    apply NoDup_cons in Hnd as [Hc Hnd].
    specialize (IH Hnd (λ c' n' H', Hf c' n' (list_elem_of_further _ _ _ H'))).
    destruct (decide (c = course)) as [->|Hne].
    + rewrite decide_True by left.
      rewrite (decide_False (P := course ∈ items.*1)) in IH by done.
      pose proof (Hf course n ltac:(left)) as ->. lia.
    + destruct (decide (course ∈ items.*1)) as [Hin|Hnin].
      * rewrite decide_True by by right. lia.
      * rewrite decide_False; [lia|]. rewrite elem_of_cons. intros [?|?]; by subst.
Qed.

Lemma seating_plan_total inp course :
  total_allocated course (seating_plan inp) =
  Z.min (student_count (course_enrollment (student_records inp)) course)
        (total_capacity inp)
  * Z.of_nat (sessions_listing course inp).
Proof.
  rewrite total_allocated_entries, seating_plan_allocations.
  unfold sessions_listing, total_capacity.
  pose proof (student_count_roster (student_records inp) course) as Hcount.
  induction (held_sessions (schedule_details inp)) as [|sess sessions IH].
  - simpl. unfold entries_total. simpl. lia.
  - rewrite bind_cons, entries_total_app, filter_cons, IH.
    destruct (sorted_courses_spec (course_enrollment (student_records inp)) sess.2)
      as [Hnd Hitems].
    rewrite (entries_total_session_exact _ _ _
               (student_count (course_enrollment (student_records inp))) _ _ Hnd).
    2:{ intros c n Hcn. by apply Hitems in Hcn as [_ ->]. }
    rewrite fill_total by lia.
    destruct (decide (course ∈ sess.2)) as [Hin|Hnin].
    + rewrite decide_True.
      2:{ apply list_elem_of_fmap. eexists (course, _). split; [done|].
          apply Hitems. done. }
      simpl length. lia.
    + rewrite decide_False.
      2:{ intros Hk. apply list_elem_of_fmap in Hk as ([c n] & -> & Hcn).
          apply Hitems in Hcn as [? _]. done. }
      lia.
Qed.

(** X20: over the whole run a course is allocated, in all its rows, the
    smaller of its enrolment count and the usable seats of all visited
    rooms, once for every held session that lists it. *)
Theorem total_allocated_per_listing (inp : Input) :
  ∃ plan, main inp = Returns plan ∧
    ∀ course,
      total_allocated course plan =
      Z.min (student_count (course_enrollment (student_records inp)) course)
            (total_capacity inp)
      * Z.of_nat (sessions_listing course inp).
Proof.
  exists (seating_plan inp). split; [apply main_returns|]. intros course.
  apply seating_plan_total.
Qed.

(** X21: when a course is listed in at least one held session and its
    enrolment count does not exceed the usable seats of all visited rooms,
    the plan names all the students of its roster, in roster order. *)
Theorem all_students_seated (inp : Input) (course : string) :
  (1 ≤ sessions_listing course inp)%nat →
  student_count (course_enrollment (student_records inp)) course
    <= total_capacity inp →
  ∃ plan, main inp = Returns plan ∧
    seated_students course plan =
    default [] (course_to_students (student_records inp) !! course).
Proof.
  intros Hlisted Hfits. exists (seating_plan inp). split; [apply main_returns|].
  rewrite seating_plan_seated_students, seating_plan_total.
  pose proof (student_count_roster (student_records inp) course) as Hcount.
  unfold course_to_students. rewrite groupby_default.
  apply take_ge. nia.
Qed.

Lemma all_students_seated_witness :
  (1 ≤ sessions_listing "SMALL" scenario_two_courses)%nat ∧
  student_count (course_enrollment (student_records scenario_two_courses)) "SMALL"
    <= total_capacity scenario_two_courses ∧
  ∃ plan, main scenario_two_courses = Returns plan ∧
    seated_students "SMALL" plan =
    default [] (course_to_students (student_records scenario_two_courses) !! "SMALL").
Proof.
  assert (1 ≤ sessions_listing "SMALL" scenario_two_courses)%nat as H1
    by (vm_compute; lia).
  assert (student_count (course_enrollment (student_records scenario_two_courses))
            "SMALL" <= total_capacity scenario_two_courses) as H2
    by (vm_compute; discriminate).
  split; [exact H1|]. split; [exact H2|].
  apply (all_students_seated scenario_two_courses "SMALL" H1 H2).
Defined.

(** X22: when the usable seats of all visited rooms are fewer than a
    course's enrolment count and the course is listed in one held session
    only, the plan names exactly the first students of the roster, as many
    as there are usable seats; the others are left out without error. *)
Theorem surplus_students_left_out (inp : Input) (course : string) :
  sessions_listing course inp = 1%nat →
  total_capacity inp
    <= student_count (course_enrollment (student_records inp)) course →
  ∃ plan, main inp = Returns plan ∧
    seated_students course plan =
    take (Z.to_nat (total_capacity inp))
         (default [] (course_to_students (student_records inp) !! course)).
Proof.
  intros Hlisted Hfits. exists (seating_plan inp). split; [apply main_returns|].
  rewrite seating_plan_seated_students, seating_plan_total, Hlisted.
  pose proof (student_count_roster (student_records inp) course) as Hcount.
  unfold course_to_students. rewrite groupby_default. f_equal. lia.
Qed.

Lemma surplus_students_left_out_witness :
  sessions_listing "BIG" scenario_two_courses = 1%nat ∧
  total_capacity scenario_two_courses
    <= student_count (course_enrollment (student_records scenario_two_courses)) "BIG" ∧
  ∃ plan, main scenario_two_courses = Returns plan ∧
    seated_students "BIG" plan =
    take (Z.to_nat (total_capacity scenario_two_courses))
         (default [] (course_to_students (student_records scenario_two_courses) !! "BIG")).
Proof.
  assert (sessions_listing "BIG" scenario_two_courses = 1%nat) as H1
    by (vm_compute; reflexivity).
  assert (total_capacity scenario_two_courses
          <= student_count (course_enrollment (student_records scenario_two_courses))
               "BIG") as H2
    by (vm_compute; discriminate).
  split; [exact H1|]. split; [exact H2|].
  apply (surplus_students_left_out scenario_two_courses "BIG" H1 H2).
Defined.

(** ** The order of the rows *)

Lemma fold_sessions_groups mode margin ce b9 lt sessions st :
  counted_have_roster ce st →
  ∃ groups,
    (foldl (seat_session mode margin ce b9 lt) st sessions).2 = st.2 ++ mjoin groups ∧
    Forall2 (λ g sess,
               alloc_of <$> g =
                 session_plan mode margin (b9 ++ lt)
                   (sorted_courses (course_student_counts ce sess.2)) ∧
               Forall (λ a, a_Date a = sess.1.1 ∧ a_Session a = sess.1.2) g)
            groups sessions.
Proof.
  revert st. induction sessions as [|sess sessions IH]; intros st Hst.
  - exists []. simpl. rewrite app_nil_r. split; [done|constructor].
  - cbn [foldl].
    destruct (IH (seat_session mode margin ce b9 lt st sess)) as (groups & Heq & Hgroups).
    { exact (seat_session_counted mode margin ce b9 lt st sess Hst). }
    destruct (update_seating_plan_rows sess.1.1 sess.1.2
                (session_plan mode margin (b9 ++ lt)
                   (sorted_courses (course_student_counts ce sess.2))) st)
      as (news & Hnews & Hmap & Hstamp).
    { apply (session_plan_enrolled mode margin ce); [done|].
      intros c n Hcn. by apply sorted_courses_spec in Hcn as [_ ->]. }
    exists (news :: groups). rewrite Heq. unfold seat_session at 1.
    rewrite Hnews, <-app_assoc. split; [done|].
    by constructor.
Qed.

(** X23: the rows of the plan come session by session in the order of
    the schedule sheet, the Morning cell of a sheet row before its Evening
    cell and blank cells skipped; the rows of a session carry its date and
    label and a course of its cell. *)
Theorem rows_in_schedule_order (inp : Input) :
  ∃ plan groups, main inp = Returns plan ∧ plan = mjoin groups ∧
    Forall2 (λ g sess,
               Forall (λ a, a_Date a = sess.1.1 ∧ a_Session a = sess.1.2 ∧
                            Course_Code a ∈ sess.2) g)
            groups
            (schedule_details inp ≫= (λ session_info,
               (match Morning_cell session_info with
                | Some cs => [(Date session_info, Morning, cs)] | None => [] end) ++
               (match Evening_cell session_info with
                | Some cs => [(Date session_info, Evening, cs)] | None => [] end))).
Proof.
  destruct (fold_sessions_groups
              (default_mode (arrangement_mode inp)) (seat_margin inp)
              (course_enrollment (student_records inp))
              (block_9_rooms (room_details inp)) (lt_block_rooms (room_details inp))
              (held_sessions (schedule_details inp))
              (course_to_students (student_records inp), []))
    as (groups & Heq & Hgroups).
  { intros c Hc. by apply student_count_pos_enrolled. }
  exists (seating_plan inp), groups.
  split; [apply main_returns|]. split; [exact Heq|].
  eapply Forall2_impl; [exact Hgroups|]. intros g sess [Hmap Hstamp].
  apply Forall_forall. intros a Ha.
  pose proof (proj1 (Forall_forall _ _) Hstamp a Ha) as [Hd Hs].
  split; [done|]. split; [done|].
  assert (alloc_of a ∈ alloc_of <$> g) as Hin by by apply list_elem_of_fmap_2.
  rewrite Hmap in Hin. unfold session_plan in Hin.
  apply list_elem_of_bind in Hin as ([c n] & Hin & Hitem). simpl in Hin.
  apply list_elem_of_fmap in Hin as ([r k] & Hae & _).
  apply sorted_courses_spec in Hitem as [Hc _].
  apply (f_equal alloc_course_code) in Hae. simpl in Hae. by rewrite Hae.
Qed.
